(** * MySQL administration service: a shallow embedding of its model and
      controller layers, and the properties of its specification.

    The embedding follows [src/config.py], [src/models/database_model.py],
    [src/models/backup_model.py], [src/models/user_model.py] and the three
    controllers.  Everything the service does not own is kept apart from the
    code: the MySQL server, the external command-line tools and a few
    interpreter builtins are fields of an [Env] record, and the files of the
    backup directory, the permissions on them, the clock and the log of
    issued effects make up the [world] that every operation threads. *)

From Stdlib Require Import ZArith Bool List Ascii.
From stdpp Require Import base strings list gmap pretty.

Local Open Scope Z_scope.

(** ** Python values

    What [json.load], [request.get_json()] and the database driver hand to
    the code: JSON-shaped Python objects.  Numbers are integers (the only
    numbers the service itself writes); a dict is an association list with
    distinct keys, in insertion order. *)

#[warnings="-register-all"]
Inductive value : Type :=
| PNone
| PBool (b : bool)
| PInt (n : Z)
| PStr (s : string)
| PList (l : list value)
| PDict (d : list (string * value)).

(** Truth value testing, as [if x:] and [not x] apply it. *)
Definition py_truthy (v : value) : bool :=
  match v with
  | PNone => false
  | PBool b => b
  | PInt n => negb (n =? 0)
  | PStr s => negb (String.eqb s "")
  | PList l => match l with [] => false | _ => true end
  | PDict d => match d with [] => false | _ => true end
  end.

Fixpoint assoc (k : string) (d : list (string * value)) : option value :=
  match d with
  | [] => None
  | (k', v) :: d' => if String.eqb k k' then Some v else assoc k d'
  end.

(** [v == s] for a [str] object [s]. *)
Definition py_eq_str (v : value) (s : string) : bool :=
  match v with
  | PStr t => String.eqb t s
  | _ => false
  end.

(** [v in names] for a list of [str] objects. *)
Definition py_in_strs (v : value) (names : list string) : bool :=
  existsb (py_eq_str v) names.

(** [type(v).__name__], as it appears in the interpreter's messages. *)
Definition py_type_name (v : value) : string :=
  match v with
  | PNone => "NoneType"
  | PBool _ => "bool"
  | PInt _ => "int"
  | PStr _ => "str"
  | PList _ => "list"
  | PDict _ => "dict"
  end.

(** ** Exceptions and results *)

Inductive exn_class : Type :=
| Exception         (* raised by the service itself: [raise Exception(...)] *)
| AttributeError
| KeyError
| TypeError
| ValueError
| IndexError
| OSError           (* FileNotFoundError, PermissionError, ... *)
| JSONDecodeError   (* a subclass of ValueError *)
| MySQLError        (* mysql.connector.Error *)
| HTTPException.    (* raised by request.get_json() *)

(** [CalledProcessError] keeps the captured streams, which is all the code
    reads of it; [stdout] is [None] where the stream was not piped. *)
Inductive exn : Type :=
| Exc (cls : exn_class) (msg : string)
| CalledProcessError (returncode : Z) (stdout : option string) (stderr : string).

(** [str(e)].  The text of a [CalledProcessError] never reaches a caller of
    the model layer (both call sites catch it), so only its shape is kept. *)
Definition exn_str (e : exn) : string :=
  match e with
  | Exc _ msg => msg
  | CalledProcessError rc _ _ =>
      "Command returned non-zero exit status " +:+ pretty rc +:+ "."
  end.

Inductive result (A : Type) : Type :=
| Ok (a : A)
| Raise (e : exn).
Arguments Ok {A} a.
Arguments Raise {A} e.

Definition is_ok {A} (r : result A) : bool :=
  match r with Ok _ => true | Raise _ => false end.

(** ** Pure Python operations that may raise *)

(** [data.get(key, default)]: only a dict has the method. *)
Definition py_get (data : value) (key : string) (default : value) : result value :=
  match data with
  | PDict d => Ok (match assoc key d with Some v => v | None => default end)
  | _ => Raise (Exc AttributeError
                   ("'" +:+ py_type_name data +:+ "' object has no attribute 'get'"))
  end.

(** [m[key]] for a [str] key. *)
Definition py_getitem (m : value) (key : string) : result value :=
  match m with
  | PDict d =>
      match assoc key d with
      | Some v => Ok v
      | None => Raise (Exc KeyError ("'" +:+ key +:+ "'"))
      end
  | PStr _ => Raise (Exc TypeError "string indices must be integers")
  | PList _ => Raise (Exc TypeError "list indices must be integers or slices, not str")
  | _ => Raise (Exc TypeError ("'" +:+ py_type_name m +:+ "' object is not subscriptable"))
  end.

(** [row[0]] for a sequence. *)
Definition py_first (row : list value) : result value :=
  match row with
  | v :: _ => Ok v
  | [] => Raise (Exc IndexError "tuple index out of range")
  end.

(** [row[i]] for a sequence. *)
Definition py_index (row : list value) (i : nat) : result value :=
  match row !! i with
  | Some v => Ok v
  | None => Raise (Exc IndexError "tuple index out of range")
  end.

(** What [for m in x] iterates over: the items of a list, the keys of a
    dict, the characters of a string; anything else is not iterable. *)
Definition py_iter (x : value) : result (list value) :=
  match x with
  | PList l => Ok l
  | PDict d => Ok (map (fun kv => PStr (fst kv)) d)
  | PStr s => Ok (map (fun c => PStr (String c "")) (String.list_ascii_of_string s))
  | _ => Raise (Exc TypeError ("'" +:+ py_type_name x +:+ "' object is not iterable"))
  end.

(** [len(x)]. *)
Definition py_len (x : value) : result Z :=
  match x with
  | PList l => Ok (Z.of_nat (length l))
  | PDict d => Ok (Z.of_nat (length d))
  | PStr s => Ok (Z.of_nat (String.length s))
  | _ => Raise (Exc TypeError ("object of type '" +:+ py_type_name x +:+ "' has no len()"))
  end.

(** [x.insert(0, e)]: only a list has the method. *)
Definition py_insert0 (x e : value) : result value :=
  match x with
  | PList l => Ok (PList (e :: l))
  | _ => Raise (Exc AttributeError
                   ("'" +:+ py_type_name x +:+ "' object has no attribute 'insert'"))
  end.

(** The items of a sequence handed to [str.join] must all be [str]. *)
Fixpoint str_items (items : list value) : result (list string) :=
  match items with
  | [] => Ok []
  | PStr s :: items' =>
      match str_items items' with
      | Ok ss => Ok (s :: ss)
      | Raise e => Raise e
      end
  | _ :: _ => Raise (Exc TypeError "sequence item: expected str instance")
  end.

(** [sep.join(x)]: [x] is iterated as [for] does. *)
Definition py_join (sep : string) (x : value) : result string :=
  match py_iter x with
  | Raise _ => Raise (Exc TypeError "can only join an iterable")
  | Ok items =>
      match str_items items with
      | Ok ss => Ok (String.concat sep ss)
      | Raise e => Raise e
      end
  end.

(** Keys of a Python [set]: the hashable values, up to [==] ([True == 1]). *)
Inductive hkey : Type :=
| KNone
| KInt (n : Z)
| KStr (s : string).

Global Instance hkey_eq_dec : EqDecision hkey.
Proof. solve_decision. Defined.

Definition py_hash_key (v : value) : result hkey :=
  match v with
  | PNone => Ok KNone
  | PBool b => Ok (KInt (if b then 1 else 0))
  | PInt n => Ok (KInt n)
  | PStr s => Ok (KStr s)
  | PList _ => Raise (Exc TypeError "unhashable type: 'list'")
  | PDict _ => Raise (Exc TypeError "unhashable type: 'dict'")
  end.

(** [s.add(k)] on a set kept as a duplicate-free list. *)
Definition set_add (k : hkey) (s : list hkey) : list hkey :=
  if bool_decide (k ∈ s) then s else s ++ [k].

(** [s.split(c)[0]]: the text before the first occurrence of [c], the whole
    string when [c] does not occur. *)
Fixpoint split_char (c : ascii) (s : string) : list string :=
  match s with
  | EmptyString => [EmptyString]
  | String a s' =>
      if Ascii.eqb a c then EmptyString :: split_char c s'
      else match split_char c s' with
           | w :: ws => String a w :: ws
           | [] => [String a EmptyString]
           end
  end.

Definition underscore : ascii := "_"%char.

Definition before_first_underscore (s : string) : string :=
  match split_char underscore s with
  | w :: _ => w
  | [] => EmptyString
  end.

(** [os.path.join(a, b)] (POSIX): an absolute [b] replaces [a]; otherwise
    [b] is appended, after a separator unless [a] is empty or ends with
    one. *)
Definition str_last (s : string) : option ascii :=
  last (String.list_ascii_of_string s).

Definition starts_with_slash (s : string) : bool :=
  match s with
  | String c _ => Ascii.eqb c "/"
  | EmptyString => false
  end.

Definition ends_with_slash (s : string) : bool :=
  match str_last s with
  | Some c => Ascii.eqb c "/"
  | None => false
  end.

Definition os_path_join (a b : string) : string :=
  if starts_with_slash b then b
  else if String.eqb a "" || ends_with_slash a then a +:+ b
  else a +:+ "/" +:+ b.

(** ** Files, clock readings, tool runs *)

(** A file of the backup directory holds either a JSON document (what
    [json.load] returns for it) or text that is not JSON, such as an SQL
    dump or a damaged document. *)
Inductive content : Type :=
| Json (v : value)
| Text (s : string).

(** [json.load] on an open file. *)
Definition json_load (c : content) : result value :=
  match c with
  | Json v => Ok v
  | Text _ => Raise (Exc JSONDecodeError "Expecting value")
  end.

(** A reading of [datetime.now()]. *)
Record datetime : Type := {
  year : nat; month : nat; day : nat;
  hour : nat; minute : nat; second : nat;
  microsecond : nat
}.

(** Decimal rendering, zero-padded on the left to [width] digits. *)
Fixpoint zeros (n : nat) : string :=
  match n with
  | O => EmptyString
  | S n' => String "0" (zeros n')
  end.

Definition pad (width n : nat) : string :=
  let digits := pretty n in
  zeros (width - String.length digits) +:+ digits.

(** [strftime('%Y%m%d_%H%M%S')]. *)
Definition strftime_compact (t : datetime) : string :=
  pad 4 (year t) +:+ pad 2 (month t) +:+ pad 2 (day t) +:+ "_" +:+
  pad 2 (hour t) +:+ pad 2 (minute t) +:+ pad 2 (second t).

(** [isoformat()]: the microseconds are printed only when not zero. *)
Definition isoformat (t : datetime) : string :=
  pad 4 (year t) +:+ "-" +:+ pad 2 (month t) +:+ "-" +:+ pad 2 (day t) +:+ "T" +:+
  pad 2 (hour t) +:+ ":" +:+ pad 2 (minute t) +:+ ":" +:+ pad 2 (second t) +:+
  (if Nat.eqb (microsecond t) 0 then EmptyString
   else "." +:+ pad 6 (microsecond t)).

(** How a [subprocess.run] ends: the program ran and exited, or it could
    not be started at all. *)
Inductive proc_outcome : Type :=
| Completed (returncode : Z) (stdout stderr : string)
| SpawnError (e : exn).

(** Effects issued towards the outside, in the order they happen, together
    with an entry for every model-layer method that is entered. *)
Inductive event : Type :=
| EvCall (method : string)
| EvConnect (database : option string)
| EvExecute (sql : string)
| EvCommit
| EvClose
| EvRun (cmd : list string).

(** ** The environment

    Everything that is external to the repository: the server (its state
    space, whether it accepts a connection, how it answers a statement),
    the command-line tools, where the service is installed, and the
    interpreter builtins whose exact behaviour the code does not fix. *)
Record Env : Type := {
  server : Type;
  (** [mysql.connector.connect(..., database=db)]: [None] when the
      connection is made, the driver's message otherwise. *)
  srv_connect : option string -> server -> option string;
  (** [cursor.execute(sql)] followed by [cursor.fetchall()] on a
      connection opened on [db]. *)
  srv_execute : string -> option string -> server -> result (list (list value)) * server;
  (** [subprocess.run(cmd, stdin=..., env=...)] with the extra environment
      variables and the text fed on standard input. *)
  run_process : list string -> list (string * string) -> option string -> server ->
                proc_outcome * server;
  (** [os.path.dirname(__file__)] of [config.py]. *)
  install_dir : string;
  (** [int(s)] for a [str]. *)
  py_int_of_str : string -> option Z;
  (** [str(v)] for a value that is not a [str]. *)
  py_str_other : value -> string;
  (** The text [json.dump(v, f, indent=2)] writes. *)
  json_dumps : value -> string
}.

(** [f"{v}"]. *)
Definition py_format (E : Env) (v : value) : string :=
  match v with
  | PStr s => s
  | _ => py_str_other E v
  end.

(** [int(v)]. *)
Definition py_int (E : Env) (v : value) : result Z :=
  match v with
  | PInt n => Ok n
  | PBool b => Ok (if b then 1 else 0)
  | PStr s =>
      match py_int_of_str E s with
      | Some n => Ok n
      | None => Raise (Exc ValueError "invalid literal for int() with base 10")
      end
  | _ => Raise (Exc TypeError "int() argument must be a string or a number")
  end.

(** The bytes of a file. *)
Definition content_text (E : Env) (c : content) : string :=
  match c with
  | Json v => json_dumps E v
  | Text s => s
  end.

(** ** The world

    [w_fs] maps a path to the file stored there; [w_readable] and
    [w_writable] say whether [open(path, 'r')] and [open(path, 'w')] are
    permitted; [w_clock] gives the successive readings of the clock and
    [w_ticks] counts the readings taken so far. *)
Record world (E : Env) : Type := World {
  w_server : server E;
  w_fs : gmap string content;
  w_readable : string -> bool;
  w_writable : string -> bool;
  w_clock : nat -> datetime;
  w_ticks : nat;
  w_trace : list event
}.
Arguments World {E}.
Arguments w_server {E}.
Arguments w_fs {E}.
Arguments w_readable {E}.
Arguments w_writable {E}.
Arguments w_clock {E}.
Arguments w_ticks {E}.
Arguments w_trace {E}.

Definition set_server {E} (srv : server E) (w : world E) : world E :=
  World srv (w_fs w) (w_readable w) (w_writable w) (w_clock w) (w_ticks w) (w_trace w).

Definition set_fs {E} (fs : gmap string content) (w : world E) : world E :=
  World (w_server w) fs (w_readable w) (w_writable w) (w_clock w) (w_ticks w) (w_trace w).

Definition set_ticks {E} (n : nat) (w : world E) : world E :=
  World (w_server w) (w_fs w) (w_readable w) (w_writable w) (w_clock w) n (w_trace w).

Definition add_event {E} (ev : event) (w : world E) : world E :=
  World (w_server w) (w_fs w) (w_readable w) (w_writable w) (w_clock w) (w_ticks w)
        (w_trace w ++ [ev]).

(** ** [config.py] *)

Module Config.

Definition MYSQL_HOST : string := "localhost".
Definition MYSQL_USER : string := "root".
Definition MYSQL_PASSWORD : string := "kelma".
Definition MYSQL_PORT : Z := 3306.

Definition BACKUP_DIR (E : Env) : string :=
  os_path_join (install_dir E) "backups".
Definition METADATA_FILE (E : Env) : string :=
  os_path_join (BACKUP_DIR E) "backup_metadata.json".
Definition RESTORE_STATS_FILE (E : Env) : string :=
  os_path_join (BACKUP_DIR E) "restore_stats.json".

Definition SYSTEM_DATABASES : list string :=
  ["information_schema"; "mysql"; "performance_schema"; "sys"].

End Config.

Global Arguments os_path_join : simpl never.
Global Arguments Config.BACKUP_DIR : simpl never.
Global Arguments Config.METADATA_FILE : simpl never.
Global Arguments Config.RESTORE_STATS_FILE : simpl never.

(** ** Computations: a state and exception monad over the world

    A raised exception keeps the effects made before it, as in Python. *)

Definition M (E : Env) (A : Type) : Type := world E -> result A * world E.

Section Runtime.
Context {E : Env}.

Definition ret {A} (a : A) : M E A := fun w => (Ok a, w).

Definition raise {A} (e : exn) : M E A := fun w => (Raise e, w).

Definition lift {A} (r : result A) : M E A := fun w => (r, w).

Definition bind {A B} (c : M E A) (k : A -> M E B) : M E B :=
  fun w =>
    match c w with
    | (Ok a, w') => k a w'
    | (Raise e, w') => (Raise e, w')
    end.

(** [try: c / except Exception as e: h e]. *)
Definition try_except {A} (c : M E A) (h : exn -> M E A) : M E A :=
  fun w =>
    match c w with
    | (Ok a, w') => (Ok a, w')
    | (Raise e, w') => h e w'
    end.

(** [try: c / except subprocess.CalledProcessError as e: h e]: any other
    exception passes through. *)
Definition try_except_called_process_error {A}
    (c : M E A) (h : Z -> option string -> string -> M E A) : M E A :=
  fun w =>
    match c w with
    | (Raise (CalledProcessError rc out err), w') => h rc out err w'
    | other => other
    end.

(** [try: c / finally: f]. *)
Definition try_finally {A} (c : M E A) (f : M E unit) : M E A :=
  fun w =>
    match c w with
    | (r, w') =>
        match f w' with
        | (Ok _, w'') => (r, w'')
        | (Raise e, w'') => (Raise e, w'')
        end
    end.

Definition gets {A} (f : world E -> A) : M E A := fun w => (Ok (f w), w).

Definition modify (f : world E -> world E) : M E unit := fun w => (Ok tt, f w).

Definition log (ev : event) : M E unit := modify (add_event ev).

End Runtime.

Declare Scope monad_scope.
Delimit Scope monad_scope with monad.
Notation "x <- c1 ;; c2" := (bind c1 (fun x => c2))
  (at level 100, c1 at next level, right associativity) : monad_scope.
Notation "c1 ;; c2" := (bind c1 (fun _ => c2))
  (at level 100, right associativity) : monad_scope.
Local Open Scope monad_scope.

Section Primitives.
Context {E : Env}.

(** [datetime.now()]: the next reading of the clock. *)
Definition now : M E datetime :=
  fun w => (Ok (w_clock w (w_ticks w)), set_ticks (S (w_ticks w)) w).

(** [os.path.exists(path)]. *)
Definition os_path_exists (path : string) : M E bool :=
  gets (fun w => match w_fs w !! path with Some _ => true | None => false end).

(** [open(path, 'r')] and reading the file. *)
Definition open_read (path : string) : M E content :=
  fun w =>
    match w_fs w !! path with
    | None => (Raise (Exc OSError "No such file or directory"), w)
    | Some c =>
        if w_readable w path then (Ok c, w)
        else (Raise (Exc OSError "Permission denied"), w)
    end.

(** [open(path, 'w')]: creates the file or truncates it. *)
Definition open_write (path : string) : M E unit :=
  fun w =>
    if w_writable w path
    then (Ok tt, set_fs (<[path := Text ""]> (w_fs w)) w)
    else (Raise (Exc OSError "Permission denied"), w).

(** Writing [c] through a handle opened with [open_write]. *)
Definition file_put (path : string) (c : content) : M E unit :=
  modify (fun w => set_fs (<[path := c]> (w_fs w)) w).

(** [os.remove(path)]. *)
Definition os_remove (path : string) : M E unit :=
  fun w =>
    match w_fs w !! path with
    | Some _ => (Ok tt, set_fs (delete path (w_fs w)) w)
    | None => (Raise (Exc OSError "No such file or directory"), w)
    end.

(** [os.path.getsize(path)]. *)
Definition os_path_getsize (path : string) : M E Z :=
  fun w =>
    match w_fs w !! path with
    | Some c => (Ok (Z.of_nat (String.length (content_text E c))), w)
    | None => (Raise (Exc OSError "No such file or directory"), w)
    end.

(** The argument list handed to [subprocess.run] must hold [str]
    objects only. *)
Fixpoint cmd_args (cmd : list value) : result (list string) :=
  match cmd with
  | [] => Ok []
  | PStr s :: cmd' =>
      match cmd_args cmd' with
      | Ok args => Ok (s :: args)
      | Raise e => Raise e
      end
  | _ :: _ => Raise (Exc TypeError "expected str, bytes or os.PathLike object")
  end.

(** [subprocess.run(cmd, stdin=..., env=..., text=True)], before the
    [check=True] test of the exit code. *)
Definition subprocess_run (cmd : list value) (env : list (string * string))
    (stdin : option string) : M E (Z * string * string) :=
  args <- lift (cmd_args cmd) ;;
  log (EvRun args) ;;
  srv <- gets w_server ;;
  let (outcome, srv') := run_process E args env stdin srv in
  modify (set_server srv') ;;
  match outcome with
  | Completed rc out err => ret (rc, out, err)
  | SpawnError e => raise e
  end.

(** An entry of the call log, written where a controller enters the
    model layer. *)
Definition call {A} (method : string) (c : M E A) : M E A :=
  log (EvCall method) ;; c.

End Primitives.

(** ** [models/database_model.py] *)

Module DatabaseModel.
Section DatabaseModel.
Context {E : Env}.

(** A connection is represented by the database it was opened on. *)
Definition get_connection (database : option string) : M E (option string) :=
  log (EvConnect database) ;;
  srv <- gets w_server ;;
  match srv_connect E database srv with
  | None => ret database
  | Some msg => raise (Exc Exception ("Database connection failed: " +:+ msg))
  end.

(** [cursor.execute(sql)] and fetching the rows on [connection]. *)
Definition cursor_execute (connection : option string) (sql : string)
    : M E (list (list value)) :=
  log (EvExecute sql) ;;
  srv <- gets w_server ;;
  let (r, srv') := srv_execute E sql connection srv in
  modify (set_server srv') ;;
  lift r.

(** [connection = None / try: connection = get_connection(db); body /
    finally: if connection and connection.is_connected(): cursor.close();
    connection.close()].  When [get_connection] raises, [connection] is
    still [None] and the [finally] block does nothing. *)
Definition with_connection {A} (database : option string)
    (body : option string -> M E A) : M E A :=
  connection <- get_connection database ;;
  try_finally (body connection) (log EvClose).

(** [[db[0] for db in rows if db[0] not in Config.SYSTEM_DATABASES]]. *)
Fixpoint non_system_names (rows : list (list value)) : result (list value) :=
  match rows with
  | [] => Ok []
  | db :: rows' =>
      match py_first db with
      | Raise e => Raise e
      | Ok name =>
          match non_system_names rows' with
          | Raise e => Raise e
          | Ok names =>
              if py_in_strs name Config.SYSTEM_DATABASES then Ok names
              else Ok (name :: names)
          end
      end
  end.

Definition get_all_databases : M E (list value) :=
  with_connection None (fun connection =>
    rows <- cursor_execute connection "SHOW DATABASES" ;;
    lift (non_system_names rows)).

Definition create_database (database_name : value) : M E bool :=
  with_connection None (fun connection =>
    cursor_execute connection
      ("CREATE DATABASE `" +:+ py_format E database_name +:+ "`") ;;
    log EvCommit ;;
    ret true).

Definition drop_database (database_name : string) : M E bool :=
  if py_in_strs (PStr database_name) Config.SYSTEM_DATABASES
  then raise (Exc Exception "Cannot drop system database")
  else
    with_connection None (fun connection =>
      cursor_execute connection ("DROP DATABASE `" +:+ database_name +:+ "`") ;;
      log EvCommit ;;
      ret true).

(** [[row[0] for row in rows]]. *)
Fixpoint first_columns (rows : list (list value)) : result (list value) :=
  match rows with
  | [] => Ok []
  | row :: rows' =>
      match py_first row with
      | Raise e => Raise e
      | Ok v =>
          match first_columns rows' with
          | Raise e => Raise e
          | Ok vs => Ok (v :: vs)
          end
      end
  end.

Definition get_tables (database_name : string) : M E (list value) :=
  with_connection (Some database_name) (fun connection =>
    rows <- cursor_execute connection "SHOW TABLES" ;;
    lift (first_columns rows)).

(** [[f"`{col['name']}` {col['type']}" for col in columns]] over the
    items that iterating [columns] yields. *)
Fixpoint column_defs (cols : list value) : result (list string) :=
  match cols with
  | [] => Ok []
  | col :: cols' =>
      match py_getitem col "name" with
      | Raise e => Raise e
      | Ok name =>
          match py_getitem col "type" with
          | Raise e => Raise e
          | Ok type =>
              match column_defs cols' with
              | Raise e => Raise e
              | Ok defs =>
                  Ok (("`" +:+ py_format E name +:+ "` " +:+ py_format E type) :: defs)
              end
          end
      end
  end.

Definition create_table (database_name : string) (table_name columns : value)
    : M E bool :=
  with_connection (Some database_name) (fun connection =>
    cols <- lift (py_iter columns) ;;
    defs <- lift (column_defs cols) ;;
    let column_defs := String.concat ", " defs in
    let query := "CREATE TABLE `" +:+ py_format E table_name +:+ "` (" +:+
                 column_defs +:+ ")" in
    cursor_execute connection query ;;
    log EvCommit ;;
    ret true).

Definition drop_table (database_name table_name : string) : M E bool :=
  with_connection (Some database_name) (fun connection =>
    cursor_execute connection ("DROP TABLE `" +:+ table_name +:+ "`") ;;
    log EvCommit ;;
    ret true).

(** The dict built from one row of [DESCRIBE]: [col[0]] to [col[5]]. *)
Definition describe_column (col : list value) : result value :=
  match py_index col 0 with
  | Raise e => Raise e
  | Ok f =>
  match py_index col 1 with
  | Raise e => Raise e
  | Ok t =>
  match py_index col 2 with
  | Raise e => Raise e
  | Ok n =>
  match py_index col 3 with
  | Raise e => Raise e
  | Ok k =>
  match py_index col 4 with
  | Raise e => Raise e
  | Ok d =>
  match py_index col 5 with
  | Raise e => Raise e
  | Ok x =>
      Ok (PDict [ ("field", f); ("type", t); ("null", n);
                  ("key", k); ("default", d); ("extra", x) ])
  end end end end end end.

(** [for col in columns: structure.append({...})]. *)
Fixpoint describe_columns (columns : list (list value)) : result (list value) :=
  match columns with
  | [] => Ok []
  | col :: columns' =>
      match describe_column col with
      | Raise e => Raise e
      | Ok d =>
          match describe_columns columns' with
          | Raise e => Raise e
          | Ok ds => Ok (d :: ds)
          end
      end
  end.

Definition get_table_structure (database_name table_name : string)
    : M E (list value) :=
  with_connection (Some database_name) (fun connection =>
    columns <- cursor_execute connection ("DESCRIBE `" +:+ table_name +:+ "`") ;;
    lift (describe_columns columns)).

End DatabaseModel.
End DatabaseModel.

(** ** [models/user_model.py] *)

Module UserModel.
Section UserModel.
Context {E : Env}.

Definition create_user (username password host : value) : M E bool :=
  DatabaseModel.with_connection None (fun connection =>
    (if py_truthy password
     then DatabaseModel.cursor_execute connection
            ("CREATE USER '" +:+ py_format E username +:+ "'@'" +:+ py_format E host +:+
             "' IDENTIFIED BY '" +:+ py_format E password +:+ "'")
     else DatabaseModel.cursor_execute connection
            ("CREATE USER '" +:+ py_format E username +:+ "'@'" +:+ py_format E host +:+ "'")) ;;
    log EvCommit ;;
    ret true).

(** [[{'username': row[0], 'host': row[1]} for row in rows]]. *)
Fixpoint user_records (rows : list (list value)) : result (list value) :=
  match rows with
  | [] => Ok []
  | row :: rows' =>
      match py_index row 0 with
      | Raise e => Raise e
      | Ok u =>
          match py_index row 1 with
          | Raise e => Raise e
          | Ok h =>
              match user_records rows' with
              | Raise e => Raise e
              | Ok users => Ok (PDict [("username", u); ("host", h)] :: users)
              end
          end
      end
  end.

Definition all_users_query : string :=
  "SELECT User, Host FROM user WHERE User != '' AND User NOT IN ('mysql.sys', 'mysql.session', 'mysql.infoschema')".

Definition get_all_users : M E (list value) :=
  DatabaseModel.with_connection (Some "mysql") (fun connection =>
    rows <- DatabaseModel.cursor_execute connection all_users_query ;;
    lift (user_records rows)).

Definition drop_user (username host : string) : M E bool :=
  DatabaseModel.with_connection None (fun connection =>
    DatabaseModel.cursor_execute connection
      ("DROP USER '" +:+ username +:+ "'@'" +:+ host +:+ "'") ;;
    log EvCommit ;;
    ret true).

Definition get_user_privileges (username host : string) : M E (list value) :=
  DatabaseModel.with_connection None (fun connection =>
    rows <- DatabaseModel.cursor_execute connection
              ("SHOW GRANTS FOR '" +:+ username +:+ "'@'" +:+ host +:+ "'") ;;
    lift (DatabaseModel.first_columns rows)).

Definition grant_privileges (username : string) (host database privileges : value)
    : M E bool :=
  DatabaseModel.with_connection None (fun connection =>
    priv_str <- lift (py_join ", " privileges) ;;
    let query := "GRANT " +:+ priv_str +:+ " ON `" +:+ py_format E database +:+
                 "`.* TO '" +:+ username +:+ "'@'" +:+ py_format E host +:+ "'" in
    DatabaseModel.cursor_execute connection query ;;
    DatabaseModel.cursor_execute connection "FLUSH PRIVILEGES" ;;
    log EvCommit ;;
    ret true).

Definition revoke_privileges (username : string) (host database privileges : value)
    : M E bool :=
  DatabaseModel.with_connection None (fun connection =>
    priv_str <- lift (py_join ", " privileges) ;;
    let query := "REVOKE " +:+ priv_str +:+ " ON `" +:+ py_format E database +:+
                 "`.* FROM '" +:+ username +:+ "'@'" +:+ py_format E host +:+ "'" in
    DatabaseModel.cursor_execute connection query ;;
    DatabaseModel.cursor_execute connection "FLUSH PRIVILEGES" ;;
    log EvCommit ;;
    ret true).

End UserModel.
End UserModel.

(** ** [models/backup_model.py] *)

Module BackupModel.
Section BackupModel.
Context {E : Env}.

Definition get_metadata : M E value :=
  found <- os_path_exists (Config.METADATA_FILE E) ;;
  if found
  then c <- open_read (Config.METADATA_FILE E) ;; lift (json_load c)
  else ret (PList []).

Definition save_metadata (metadata : value) : M E unit :=
  open_write (Config.METADATA_FILE E) ;;
  file_put (Config.METADATA_FILE E) (Json metadata).

Definition add_backup_entry (database table : value) (filename : string)
    (size : Z) : M E value :=
  metadata <- get_metadata ;;
  t <- now ;;
  let entry := PDict [
    ("filename", PStr filename);
    ("database", database);
    ("table", if py_truthy table then table else PStr "Full Database");
    ("timestamp", PStr (isoformat t));
    ("size", PInt size) ] in
  metadata' <- lift (py_insert0 metadata entry) ;;
  save_metadata metadata' ;;
  ret entry.

(** [[m for m in metadata if m['filename'] != filename]] over the items
    that iterating [metadata] yields. *)
Fixpoint entries_without (filename : string) (items : list value)
    : result (list value) :=
  match items with
  | [] => Ok []
  | m :: items' =>
      match py_getitem m "filename" with
      | Raise e => Raise e
      | Ok name =>
          match entries_without filename items' with
          | Raise e => Raise e
          | Ok kept =>
              if py_eq_str name filename then Ok kept else Ok (m :: kept)
          end
      end
  end.

Definition remove_backup_entry (filename : string) : M E unit :=
  metadata <- get_metadata ;;
  items <- lift (py_iter metadata) ;;
  kept <- lift (entries_without filename items) ;;
  save_metadata (PList kept).

(** [subprocess.run(cmd, stdout=f, stderr=PIPE, text=True, check=True)]
    with [f] the handle open on [filepath]: whatever the tool prints goes
    to the file, also when it then exits with an error. *)
Definition run_into_file (cmd : list value) (filepath : string) : M E unit :=
  r <- subprocess_run cmd [] None ;;
  let '(rc, out, err) := r in
  file_put filepath (Text out) ;;
  if rc =? 0 then ret tt
  else raise (CalledProcessError rc None err).

Definition backup_filename (database_name table_name : value) (timestamp : string)
    : string :=
  if py_truthy table_name
  then py_format E database_name +:+ "_" +:+ py_format E table_name +:+ "_" +:+
       timestamp +:+ ".sql"
  else py_format E database_name +:+ "_" +:+ timestamp +:+ ".sql".

Definition mysqldump_cmd (database_name table_name : value) : list value :=
  [ PStr "mysqldump";
    PStr ("--host=" +:+ Config.MYSQL_HOST);
    PStr ("--user=" +:+ Config.MYSQL_USER);
    PStr ("--password=" +:+ Config.MYSQL_PASSWORD);
    database_name ]
  ++ (if py_truthy table_name then [table_name] else []).

Definition backup_database (database_name table_name : value) : M E value :=
  t <- now ;;
  let timestamp := strftime_compact t in
  let filename := backup_filename database_name table_name timestamp in
  let filepath := os_path_join (Config.BACKUP_DIR E) filename in
  let cmd := mysqldump_cmd database_name table_name in
  try_except_called_process_error
    (open_write filepath ;;
     run_into_file cmd filepath ;;
     file_size <- os_path_getsize filepath ;;
     add_backup_entry database_name table_name filename file_size ;;
     ret (PDict [ ("filename", PStr filename);
                  ("size", PInt file_size);
                  ("path", PStr filepath) ]))
    (fun _ _ stderr =>
       found <- os_path_exists filepath ;;
       (if found then os_remove filepath else ret tt) ;;
       raise (Exc Exception ("Backup failed: " +:+ stderr))).

Definition _load_restore_count : M E Z :=
  try_except
    (found <- os_path_exists (Config.RESTORE_STATS_FILE E) ;;
     if found
     then c <- open_read (Config.RESTORE_STATS_FILE E) ;;
          data <- lift (json_load c) ;;
          v <- lift (py_get data "total_restored" (PInt 0)) ;;
          lift (py_int E v)
     else ret 0)
    (fun _ => ret 0).

Definition _save_restore_count (count : Z) : M E unit :=
  try_except
    (open_write (Config.RESTORE_STATS_FILE E) ;;
     file_put (Config.RESTORE_STATS_FILE E)
              (Json (PDict [("total_restored", PInt count)])))
    (fun _ => ret tt).

(** Lines 117-119: the target database after
    [if not target_database: target_database = filename.split('_')[0]]. *)
Definition restore_target (filename : string) (target_database : value) : value :=
  if py_truthy target_database then target_database
  else PStr (before_first_underscore filename).

Definition mysql_cmd (target_database : value) : list value :=
  [ PStr "mysql";
    PStr ("--host=" +:+ Config.MYSQL_HOST);
    PStr ("--user=" +:+ Config.MYSQL_USER);
    target_database ].

(** [subprocess.run(cmd, stdin=f, stderr=PIPE, stdout=PIPE, text=True,
    check=True, env=env)] with [f] open on [filepath] for reading. *)
Definition run_from_file (cmd : list value) (env : list (string * string))
    (filepath : string) : M E unit :=
  c <- open_read filepath ;;
  r <- subprocess_run cmd env (Some (content_text E c)) ;;
  let '(rc, out, err) := r in
  if rc =? 0 then ret tt
  else raise (CalledProcessError rc (Some out) err).

(** Lines 152-158: the best-effort increment of the restore counter. *)
Definition bump_restore_count : M E unit :=
  try_except
    (count <- _load_restore_count ;;
     _save_restore_count (count + 1))
    (fun _ => ret tt).

(** [os.path.join(Config.BACKUP_DIR, filename)] accepts a [str] only, so
    any other truthy [filename] ends the call with a [TypeError]. *)
Definition restore_backup (filename target_database : value) : M E bool :=
  match filename with
  | PStr name =>
      let filepath := os_path_join (Config.BACKUP_DIR E) name in
      found <- os_path_exists filepath ;;
      if negb found then raise (Exc Exception "Backup file not found")
      else
        let target_database := restore_target name target_database in
        let cmd := mysql_cmd target_database in
        try_except
          (DatabaseModel.create_database target_database ;; ret tt)
          (fun _ => ret tt) ;;
        let env := [("MYSQL_PWD", Config.MYSQL_PASSWORD)] in
        try_except_called_process_error
          (run_from_file cmd env filepath ;;
           bump_restore_count ;;
           ret true)
          (fun _ stdout stderr =>
             raise (Exc Exception
                      ("Restore failed: " +:+
                       (if String.eqb stderr "" then
                          match stdout with Some out => out | None => "None" end
                        else stderr))))
  | _ => raise (Exc TypeError "expected str, bytes or os.PathLike object")
  end.

Definition delete_backup (filename : string) : M E bool :=
  let filepath := os_path_join (Config.BACKUP_DIR E) filename in
  found <- os_path_exists filepath ;;
  (if found then os_remove filepath else ret tt) ;;
  remove_backup_entry filename ;;
  ret true.

(** [for entry in metadata: databases_backed_up.add(entry['database'])]. *)
Fixpoint databases_of (items : list value) (seen : list hkey)
    : result (list hkey) :=
  match items with
  | [] => Ok seen
  | entry :: items' =>
      match py_getitem entry "database" with
      | Raise e => Raise e
      | Ok db =>
          match py_hash_key db with
          | Raise e => Raise e
          | Ok k => databases_of items' (set_add k seen)
          end
      end
  end.

Definition newline : string := String (ascii_of_nat 10) EmptyString.

Definition table_count_query : string :=
  let system_dbs := String.concat "','" Config.SYSTEM_DATABASES in
  newline +:+
  "                SELECT COUNT(*) " +:+ newline +:+
  "                FROM information_schema.TABLES " +:+ newline +:+
  "                WHERE TABLE_SCHEMA NOT IN ('" +:+ system_dbs +:+ "')" +:+ newline +:+
  "                AND TABLE_TYPE = 'BASE TABLE'" +:+ newline +:+
  "            ".

(** Lines 189-209: the live count of base tables, 0 on any failure. *)
Definition count_tables : M E value :=
  try_except
    (connection <- DatabaseModel.get_connection (Some "information_schema") ;;
     rows <- DatabaseModel.cursor_execute connection table_count_query ;;
     total_tables <-
       match rows with
       | [] => ret (PInt 0)                (* fetchone() returned None *)
       | [] :: _ => ret (PInt 0)           (* an empty row is falsy *)
       | (v :: _) :: _ => ret v
       end ;;
     log EvClose ;;
     ret total_tables)
    (fun _ => ret (PInt 0)).

Definition get_backup_stats : M E value :=
  metadata <- get_metadata ;;
  items <- lift (py_iter metadata) ;;
  databases_backed_up <- lift (databases_of items []) ;;
  total_restored <- _load_restore_count ;;
  total_tables <- count_tables ;;
  total_backups <- lift (py_len metadata) ;;
  ret (PDict [ ("total_backups", PInt total_backups);
               ("databases_backed_up", PInt (Z.of_nat (length databases_backed_up)));
               ("total_restored", PInt total_restored);
               ("total_tables", total_tables) ]).

End BackupModel.
End BackupModel.

(** ** Controllers

    A handler receives what [request.get_json()] yields for the request (a
    decoded JSON value, or the exception it raises) or the path parameter of
    the route, and answers with a status code and a JSON body. *)

Record response : Type := Response {
  status : Z;
  body : value
}.

Definition jsonify (fields : list (string * value)) : response :=
  Response 200 (PDict fields).

Definition failure (code : Z) (message : string) : response :=
  Response code (PDict [("success", PBool false); ("error", PStr message)]).

(** [except Exception as e: return jsonify({'success': False,
    'error': str(e)}), 500]. *)
Definition internal_error {E} (e : exn) : M E response :=
  ret (failure 500 (exn_str e)).

Module database_controller.
Section database_controller.
Context {E : Env}.

Definition get_databases : M E response :=
  try_except
    (databases <- call "DatabaseModel.get_all_databases"
                    DatabaseModel.get_all_databases ;;
     ret (jsonify [("success", PBool true); ("databases", PList databases)]))
    internal_error.

Definition create_database (get_json : result value) : M E response :=
  try_except
    (data <- lift get_json ;;
     database_name <- lift (py_get data "name" PNone) ;;
     if negb (py_truthy database_name)
     then ret (failure 400 "Database name is required")
     else
       call "DatabaseModel.create_database"
         (DatabaseModel.create_database database_name) ;;
       ret (jsonify [("success", PBool true);
                     ("message", PStr ("Database " +:+ py_format E database_name +:+
                                       " created successfully"))]))
    internal_error.

Definition drop_database (database_name : string) : M E response :=
  try_except
    (call "DatabaseModel.drop_database"
       (DatabaseModel.drop_database database_name) ;;
     ret (jsonify [("success", PBool true);
                   ("message", PStr ("Database " +:+ database_name +:+
                                     " dropped successfully"))]))
    internal_error.

Definition get_tables (database_name : string) : M E response :=
  try_except
    (tables <- call "DatabaseModel.get_tables"
                 (DatabaseModel.get_tables database_name) ;;
     ret (jsonify [("success", PBool true); ("tables", PList tables)]))
    internal_error.

Definition create_table (database_name : string) (get_json : result value)
    : M E response :=
  try_except
    (data <- lift get_json ;;
     table_name <- lift (py_get data "name" PNone) ;;
     columns <- lift (py_get data "columns" PNone) ;;
     if negb (py_truthy table_name) || negb (py_truthy columns)
     then ret (failure 400 "Table name and columns are required")
     else
       call "DatabaseModel.create_table"
         (DatabaseModel.create_table database_name table_name columns) ;;
       ret (jsonify [("success", PBool true);
                     ("message", PStr ("Table " +:+ py_format E table_name +:+
                                       " created successfully"))]))
    internal_error.

Definition drop_table (database_name table_name : string) : M E response :=
  try_except
    (call "DatabaseModel.drop_table"
       (DatabaseModel.drop_table database_name table_name) ;;
     ret (jsonify [("success", PBool true);
                   ("message", PStr ("Table " +:+ table_name +:+
                                     " dropped successfully"))]))
    internal_error.

Definition get_table_structure (database_name table_name : string) : M E response :=
  try_except
    (structure <- call "DatabaseModel.get_table_structure"
                    (DatabaseModel.get_table_structure database_name table_name) ;;
     ret (jsonify [("success", PBool true); ("structure", PList structure)]))
    internal_error.

End database_controller.
End database_controller.

Module backup_controller.
Section backup_controller.
Context {E : Env}.

Definition get_metadata : M E response :=
  try_except
    (metadata <- call "BackupModel.get_metadata" BackupModel.get_metadata ;;
     ret (jsonify [("success", PBool true); ("backups", metadata)]))
    internal_error.

Definition get_stats : M E response :=
  try_except
    (stats <- call "BackupModel.get_backup_stats" BackupModel.get_backup_stats ;;
     ret (jsonify [("success", PBool true); ("stats", stats)]))
    internal_error.

Definition create_backup (get_json : result value) : M E response :=
  try_except
    (data <- lift get_json ;;
     database <- lift (py_get data "database" PNone) ;;
     table <- lift (py_get data "table" PNone) ;;
     if negb (py_truthy database)
     then ret (failure 400 "Database name is required")
     else
       result <- call "BackupModel.backup_database"
                   (BackupModel.backup_database database table) ;;
       ret (jsonify [("success", PBool true);
                     ("message", PStr "Backup created successfully");
                     ("backup", result)]))
    internal_error.

Definition restore_backup (get_json : result value) : M E response :=
  try_except
    (data <- lift get_json ;;
     filename <- lift (py_get data "filename" PNone) ;;
     target_database <- lift (py_get data "target_database" PNone) ;;
     if negb (py_truthy filename)
     then ret (failure 400 "Filename is required")
     else
       call "BackupModel.restore_backup"
         (BackupModel.restore_backup filename target_database) ;;
       ret (jsonify [("success", PBool true);
                     ("message", PStr "Database restored successfully")]))
    internal_error.

Definition delete_backup (filename : string) : M E response :=
  try_except
    (call "BackupModel.delete_backup" (BackupModel.delete_backup filename) ;;
     ret (jsonify [("success", PBool true);
                   ("message", PStr "Backup deleted successfully")]))
    internal_error.

End backup_controller.
End backup_controller.

Module user_controller.
Section user_controller.
Context {E : Env}.

Definition create_user (get_json : result value) : M E response :=
  try_except
    (data <- lift get_json ;;
     username <- lift (py_get data "username" PNone) ;;
     password <- lift (py_get data "password" PNone) ;;
     host <- lift (py_get data "host" (PStr "localhost")) ;;
     if negb (py_truthy username) || negb (py_truthy password)
     then ret (failure 400 "Username and password are required")
     else
       call "UserModel.create_user"
         (UserModel.create_user username password host) ;;
       ret (jsonify [("success", PBool true);
                     ("message", PStr ("User " +:+ py_format E username +:+ "@" +:+
                                       py_format E host +:+ " created successfully"))]))
    internal_error.

Definition get_users : M E response :=
  try_except
    (users <- call "UserModel.get_all_users" UserModel.get_all_users ;;
     ret (jsonify [("success", PBool true); ("users", PList users)]))
    internal_error.

(** [request.args.get('host', 'localhost')] for the [host] parameter of
    the query string, when there is one. *)
Definition host_of_query (host_arg : option string) : string :=
  match host_arg with
  | Some h => h
  | None => "localhost"
  end.

Definition drop_user (username : string) (host_arg : option string) : M E response :=
  try_except
    (let host := host_of_query host_arg in
     call "UserModel.drop_user" (UserModel.drop_user username host) ;;
     ret (jsonify [("success", PBool true);
                   ("message", PStr ("User " +:+ username +:+ "@" +:+ host +:+
                                     " dropped successfully"))]))
    internal_error.

Definition get_privileges (username : string) (host_arg : option string)
    : M E response :=
  try_except
    (let host := host_of_query host_arg in
     privileges <- call "UserModel.get_user_privileges"
                     (UserModel.get_user_privileges username host) ;;
     ret (jsonify [("success", PBool true); ("privileges", PList privileges)]))
    internal_error.

Definition grant_privileges (username : string) (get_json : result value)
    : M E response :=
  try_except
    (data <- lift get_json ;;
     host <- lift (py_get data "host" (PStr "localhost")) ;;
     database <- lift (py_get data "database" PNone) ;;
     privileges <- lift (py_get data "privileges" PNone) ;;
     if negb (py_truthy database) || negb (py_truthy privileges)
     then ret (failure 400 "Database and privileges are required")
     else
       call "UserModel.grant_privileges"
         (UserModel.grant_privileges username host database privileges) ;;
       ret (jsonify [("success", PBool true);
                     ("message", PStr "Privileges granted successfully")]))
    internal_error.

Definition revoke_privileges (username : string) (get_json : result value)
    : M E response :=
  try_except
    (data <- lift get_json ;;
     host <- lift (py_get data "host" (PStr "localhost")) ;;
     database <- lift (py_get data "database" PNone) ;;
     privileges <- lift (py_get data "privileges" PNone) ;;
     if negb (py_truthy database) || negb (py_truthy privileges)
     then ret (failure 400 "Database and privileges are required")
     else
       call "UserModel.revoke_privileges"
         (UserModel.revoke_privileges username host database privileges) ;;
       ret (jsonify [("success", PBool true);
                     ("message", PStr "Privileges revoked successfully")]))
    internal_error.

End user_controller.
End user_controller.

(** ** A small concrete environment

    Used to run the model on explicit inputs: a server that is up or down
    and lists its databases, and tools that exit with a fixed code. *)

Module Demo.

Record demo_server : Type := DemoServer {
  up : bool;
  names : list string;
  tools_exit : Z
}.

Definition connect (database : option string) (s : demo_server) : option string :=
  if up s then None
  else Some "2003 (HY000): Can't connect to MySQL server on 'localhost:3306'".

Definition execute (sql : string) (database : option string) (s : demo_server)
    : result (list (list value)) * demo_server :=
  if String.eqb sql "SHOW DATABASES"
  then (Ok (map (fun n => [PStr n]) (names s)), s)
  else (Raise (Exc MySQLError "1064 (42000): You have an error in your SQL syntax"), s).

Definition run (cmd : list string) (env : list (string * string))
    (stdin : option string) (s : demo_server) : proc_outcome * demo_server :=
  if tools_exit s =? 0 then (Completed 0 "-- MySQL dump" "", s)
  else (Completed (tools_exit s) "-- MySQL" "mysqldump: Got error: 1049", s).

Definition env : Env := {|
  server := demo_server;
  srv_connect := connect;
  srv_execute := execute;
  run_process := run;
  install_dir := "/srv/app";
  py_int_of_str := fun _ => None;
  py_str_other := py_type_name;
  json_dumps := fun _ => "[]"
|}.

Definition noon : datetime :=
  {| year := 2024; month := 1; day := 1;
     hour := 12; minute := 0; second := 0; microsecond := 0 |}.

Definition entry (filename database : string) : value :=
  PDict [ ("filename", PStr filename); ("database", PStr database);
          ("table", PStr "Full Database");
          ("timestamp", PStr "2023-12-31T23:59:59"); ("size", PInt 14) ].

(** A world with the given server and files, everything accessible, the
    clock stopped at noon. *)
Definition world_of (s : demo_server) (files : list (string * content)) : world env :=
  World (E := env) s (list_to_map files) (fun _ => true) (fun _ => true)
        (fun _ => noon) 0%nat [].

Definition healthy : demo_server :=
  DemoServer true ["information_schema"; "mysql"; "salesdb"; "sys"; "hr"] 0.

Definition failing_tools : demo_server :=
  DemoServer true ["salesdb"] 2.

Definition down : demo_server :=
  DemoServer false [] 0.

Definition two_backups : list (string * content) :=
  [ ("/srv/app/backups/backup_metadata.json",
     Json (PList [ entry "salesdb_20231231_235959.sql" "salesdb";
                   entry "hr_20231230_080000.sql" "hr" ]));
    ("/srv/app/backups/salesdb_20231231_235959.sql", Text "-- MySQL dump");
    ("/srv/app/backups/hr_20231230_080000.sql", Text "-- MySQL dump") ].

(** The backup directory after one backup of [salesdb] made at noon. *)
Definition one_backup_at_noon : list (string * content) :=
  [ ("/srv/app/backups/backup_metadata.json",
     Json (PList [ entry "salesdb_20240101_120000.sql" "salesdb" ]));
    ("/srv/app/backups/salesdb_20240101_120000.sql", Text "-- MySQL dump") ].

(** A backup directory whose metadata document is damaged. *)
Definition damaged_metadata : list (string * content) :=
  [ ("/srv/app/backups/backup_metadata.json", Text "[{");
    ("/srv/app/backups/hr_20231230_080000.sql", Text "-- MySQL dump") ].

End Demo.

(** ** A scripted environment

    A server that accepts or refuses connections and answers every
    statement with the same outcome, and tools that end in a fixed way. *)

Module Script.

Record script : Type := Build {
  accepts : bool;
  answer : result (list (list value));
  tool : proc_outcome
}.

Definition connect (database : option string) (s : script) : option string :=
  if accepts s then None else Some "2003 (HY000): Can't connect to MySQL server".

Definition execute (sql : string) (database : option string) (s : script)
    : result (list (list value)) * script :=
  (answer s, s).

Definition run (cmd : list string) (env : list (string * string))
    (stdin : option string) (s : script) : proc_outcome * script :=
  (tool s, s).

Definition env : Env := {|
  server := script;
  srv_connect := connect;
  srv_execute := execute;
  run_process := run;
  install_dir := "/srv/app";
  py_int_of_str := fun _ => None;
  py_str_other := py_type_name;
  json_dumps := fun _ => "[]"
|}.

Definition world_of (s : script) (files : list (string * content)) : world env :=
  World (E := env) s (list_to_map files) (fun _ => true) (fun _ => true)
        (fun _ => Demo.noon) 0%nat [].

Definition accepting (rows : list (list value)) : script :=
  Build true (Ok rows) (Completed 0 "-- MySQL dump" "").

Definition rejecting : script :=
  Build true (Raise (Exc MySQLError "1064 (42000): You have an error in your SQL syntax"))
        (Completed 1 "" "ERROR 1049 (42000): Unknown database").

Definition refusing : script :=
  Build false (Ok []) (Completed 0 "" "").

Definition no_tool : script :=
  Build true (Ok [])
        (SpawnError (Exc OSError "[Errno 2] No such file or directory: 'mysqldump'")).

End Script.


(** ** Vocabulary of the specification *)

Section Vocabulary.
Context {E : Env}.

(** The sequence of entries the metadata store holds: empty when the
    file is absent, undefined when the file does not hold a JSON array. *)
Definition stored_entries (w : world E) : option (list value) :=
  match w_fs w !! Config.METADATA_FILE E with
  | None => Some []
  | Some (Json (PList l)) => Some l
  | Some _ => None
  end.

(** What reading the stats file yields, as a function of the file and of
    whether it may be read. *)
Definition stats_reading (file : option content) (readable : bool) : Z :=
  match file with
  | Some (Json data) =>
      if readable then
        match py_get data "total_restored" (PInt 0) with
        | Ok v => match py_int E v with Ok n => n | Raise _ => 0 end
        | Raise _ => 0
        end
      else 0
  | Some (Text _) => 0
  | None => 0
  end.

(** The restore counter as it reads back. *)
Definition restore_count (w : world E) : Z :=
  match fst (BackupModel._load_restore_count w) with
  | Ok n => n
  | Raise _ => 0
  end.

(** Backups created one after the other, each from a database name and
    a table name; the results are in the order of creation. *)
Fixpoint backup_all (requests : list (value * value)) : M E (list value) :=
  match requests with
  | [] => ret []
  | (database_name, table_name) :: rest =>
      r <- BackupModel.backup_database database_name table_name ;;
      rs <- backup_all rest ;;
      ret (r :: rs)
  end.

(** Restores run one after the other, each from a file name and a
    target database. *)
Fixpoint restore_all (requests : list (value * value)) : M E unit :=
  match requests with
  | [] => ret tt
  | (filename, target_database) :: rest =>
      BackupModel.restore_backup filename target_database ;;
      restore_all rest
  end.

(** Lines 112-151 and 160-161 of [restore_backup]: everything up to the
    end of the load tool's run, before the counter is touched. *)
Definition restore_load (filename target_database : value) : M E unit :=
  match filename with
  | PStr name =>
      let filepath := os_path_join (Config.BACKUP_DIR E) name in
      found <- os_path_exists filepath ;;
      if negb found then raise (Exc Exception "Backup file not found")
      else
        let target_database := BackupModel.restore_target name target_database in
        try_except
          (DatabaseModel.create_database target_database ;; ret tt)
          (fun _ => ret tt) ;;
        try_except_called_process_error
          (BackupModel.run_from_file (BackupModel.mysql_cmd target_database)
             [("MYSQL_PWD", Config.MYSQL_PASSWORD)] filepath)
          (fun _ stdout stderr =>
             raise (Exc Exception
                      ("Restore failed: " +:+
                       (if String.eqb stderr "" then
                          match stdout with Some out => out | None => "None" end
                        else stderr))))
  | _ => raise (Exc TypeError "expected str, bytes or os.PathLike object")
  end.

(** The path a backup started in world [w] writes to. *)
Definition dump_path (database_name table_name : value) (w : world E) : string :=
  os_path_join (Config.BACKUP_DIR E)
    (BackupModel.backup_filename (E := E) database_name table_name
       (strftime_compact (w_clock w (w_ticks w)))).

(** The [filename] field of an entry or of a backup result. *)
Definition filename_of (v : value) : result value := py_getitem v "filename".

(** The table-count query of the statistics cannot be executed: the
    connection is refused, or the statement fails. *)
Definition table_count_fails (w : world E) : Prop :=
  (exists msg, srv_connect E (Some "information_schema") (w_server w) = Some msg)
  \/ (srv_connect E (Some "information_schema") (w_server w) = None
      /\ exists e, fst (srv_execute E BackupModel.table_count_query
                          (Some "information_schema") (w_server w)) = Raise e).

(** The field of a JSON object as [data.get(key)] reads it. *)
Definition field (d : list (string * value)) (key : string) : value :=
  match assoc key d with
  | Some v => v
  | None => PNone
  end.

(** The answer is the error envelope with HTTP status 500. *)
Definition is_failure_500 (r : result response) : Prop :=
  exists message, r = Ok (failure 500 message).

(** The items of a metadata sequence whose [filename] is not the given
    one, in their order. *)
Definition names_file (filename : string) (m : value) : bool :=
  match filename_of m with
  | Ok name => py_eq_str name filename
  | Raise _ => false
  end.

Definition other_entries (filename : string) (l : list value) : list value :=
  List.filter (fun m => negb (names_file filename m)) l.

(** An entry as the service writes them: a JSON object with a
    [filename]. *)
Definition has_filename (m : value) : Prop :=
  exists name, filename_of m = Ok name.

(** The two worlds have the same files and the same permissions. *)
Definition same_files (w w' : world E) : Prop :=
  w_fs w' = w_fs w /\ w_readable w' = w_readable w /\ w_writable w' = w_writable w.

(** The two worlds have the same permissions. *)
Definition same_perms (w w' : world E) : Prop :=
  w_readable w' = w_readable w /\ w_writable w' = w_writable w.

(** A computation that never touches the files. *)
Definition keeps_files {A} (c : M E A) : Prop :=
  forall w, same_files w (snd (c w)).

End Vocabulary.

(** ** Outcomes of the database and user layers *)

Section Outcomes.
Context {E : Env}.

(** One statement run on a connection of its own: the connection, the
    statement, the commit when the server accepted the statement, the
    close in both cases. *)
Definition statement_outcome (database : option string) (sql : string)
    (w : world E) : result bool * world E :=
  let w0 := add_event (EvExecute sql) (add_event (EvConnect database) w) in
  match srv_execute E sql database (w_server w) with
  | (Ok _, srv') =>
      (Ok true, add_event EvClose (add_event EvCommit (set_server srv' w0)))
  | (Raise e, srv') =>
      (Raise e, add_event EvClose (set_server srv' w0))
  end.

(** One query run on a connection of its own, its rows handed to [post]. *)
Definition query_outcome {A} (database : option string) (sql : string)
    (post : list (list value) -> result A) (w : world E) : result A * world E :=
  let w0 := add_event (EvExecute sql) (add_event (EvConnect database) w) in
  match srv_execute E sql database (w_server w) with
  | (Ok rows, srv') => (post rows, add_event EvClose (set_server srv' w0))
  | (Raise e, srv') => (Raise e, add_event EvClose (set_server srv' w0))
  end.

(** A privilege statement followed by [FLUSH PRIVILEGES] on the same
    connection: the flush only after an accepted statement, the commit
    only after an accepted flush, the close in every case. *)
Definition privilege_outcome (sql : string) (w : world E) : result bool * world E :=
  let w0 := add_event (EvExecute sql) (add_event (EvConnect None) w) in
  match srv_execute E sql None (w_server w) with
  | (Raise e, srv1) => (Raise e, add_event EvClose (set_server srv1 w0))
  | (Ok _, srv1) =>
      let w1 := add_event (EvExecute "FLUSH PRIVILEGES") (set_server srv1 w0) in
      match srv_execute E "FLUSH PRIVILEGES" None srv1 with
      | (Raise e, srv2) => (Raise e, add_event EvClose (set_server srv2 w1))
      | (Ok _, srv2) =>
          (Ok true, add_event EvClose (add_event EvCommit (set_server srv2 w1)))
      end
  end.

(** What a refused connection leaves: the wrapped error and the attempt
    in the log. *)
Definition refused {A} (database : option string) (msg : string) (w : world E)
    : result A * world E :=
  (Raise (Exc Exception ("Database connection failed: " +:+ msg)),
   add_event (EvConnect database) w).

(** What a failure between the opening and the first statement leaves:
    the error, and a connection opened and closed with nothing issued. *)
Definition aborted {A} (database : option string) (e : exn) (w : world E)
    : result A * world E :=
  (Raise e, add_event EvClose (add_event (EvConnect database) w)).

(** The record [get_table_structure] builds from a row of six columns or
    more. *)
Definition column_record (row : list value) : value :=
  PDict [ ("field", default PNone (row !! 0%nat));
          ("type", default PNone (row !! 1%nat));
          ("null", default PNone (row !! 2%nat));
          ("key", default PNone (row !! 3%nat));
          ("default", default PNone (row !! 4%nat));
          ("extra", default PNone (row !! 5%nat)) ].

(** The column definition of a name and a type given as strings. *)
Definition column_def (c : string * string) : string :=
  "`" +:+ fst c +:+ "` " +:+ snd c.

Definition column_value (c : string * string) : value :=
  PDict [("name", PStr (fst c)); ("type", PStr (snd c))].

(** No file of the first world is missing in the second. *)
Definition grows (w w' : world E) : Prop :=
  forall path, is_Some (w_fs w !! path) -> is_Some (w_fs w' !! path).

(** How a route answers after its model-layer call. *)
Definition answer_of {A} (ok : A -> response) (r : result A * world E)
    : result response * world E :=
  match r with
  | (Ok a, w') => (Ok (ok a), w')
  | (Raise e, w') => (Ok (failure 500 (exn_str e)), w')
  end.

End Outcomes.


(** * Properties *)

(** ** Reasoning about computations *)

Section MonadFacts.
Context {E : Env}.

Lemma bind_ok_inv {A B} (c : M E A) (k : A -> M E B) w b w' :
  bind c k w = (Ok b, w') ->
  exists a w1, c w = (Ok a, w1) /\ k a w1 = (Ok b, w').
Proof.
  unfold bind. destruct (c w) as [[a|e] w1]; intros H.
  - exists a, w1. split; [reflexivity | exact H].
  - discriminate H.
Qed.

Lemma bind_ok {A B} (c : M E A) (k : A -> M E B) w a w1 :
  c w = (Ok a, w1) -> bind c k w = k a w1.
Proof. unfold bind. intros ->. reflexivity. Qed.

Lemma bind_raise {A B} (c : M E A) (k : A -> M E B) w e w1 :
  c w = (Raise e, w1) -> bind c k w = (Raise e, w1).
Proof. unfold bind. intros ->. reflexivity. Qed.

(** A handler whose model-layer call returns goes on with the rest of
    its body; one whose call raises answers with the error envelope. *)
Lemma handler_call_ok {A} (method : string) (c : M E A) (k : A -> M E response)
    (w w1 : world E) (a : A) :
  c (add_event (EvCall method) w) = (Ok a, w1) ->
  try_except (bind (call method c) k) internal_error w
  = try_except (k a) internal_error w1.
Proof.
  intros H. unfold try_except, call, bind, log, modify. rewrite H. reflexivity.
Qed.

Lemma handler_call_raise {A} (method : string) (c : M E A) (k : A -> M E response)
    (w w1 : world E) (e : exn) :
  c (add_event (EvCall method) w) = (Raise e, w1) ->
  try_except (bind (call method c) k) internal_error w
  = (Ok (failure 500 (exn_str e)), w1).
Proof.
  intros H. unfold try_except, call, bind, log, modify. rewrite H. reflexivity.
Qed.

End MonadFacts.

Lemma py_in_strs_elem_of (name : string) (l : list string) :
  py_in_strs (PStr name) l = true <-> name ∈ l.
Proof.
  unfold py_in_strs. rewrite existsb_exists. split.
  - intros (x & Hin & Heq). simpl in Heq. apply String.eqb_eq in Heq. subst x.
    apply list_elem_of_In. exact Hin.
  - intros Hin. exists name. split.
    + apply list_elem_of_In. exact Hin.
    + simpl. apply String.eqb_refl.
Qed.

Lemma py_in_strs_not_elem_of (name : string) (l : list string) :
  py_in_strs (PStr name) l = false <-> name ∉ l.
Proof.
  rewrite <- py_in_strs_elem_of. destruct (py_in_strs (PStr name) l); split; congruence.
Qed.

(** ** The database layer *)

Section DatabaseFacts.
Context {E : Env}.

Lemma get_connection_ok (database : option string) (w : world E) :
  srv_connect E database (w_server w) = None ->
  DatabaseModel.get_connection database w
  = (Ok database, add_event (EvConnect database) w).
Proof.
  intros H. unfold DatabaseModel.get_connection, bind, log, modify, gets, ret.
  cbn. rewrite H. reflexivity.
Qed.

Lemma get_connection_failed (database : option string) (w : world E) msg :
  srv_connect E database (w_server w) = Some msg ->
  DatabaseModel.get_connection database w
  = (Raise (Exc Exception ("Database connection failed: " +:+ msg)),
     add_event (EvConnect database) w).
Proof.
  intros H. unfold DatabaseModel.get_connection, bind, log, modify, gets, raise.
  cbn. rewrite H. reflexivity.
Qed.

Lemma cursor_execute_eq (connection : option string) (sql : string) (w : world E) :
  DatabaseModel.cursor_execute connection sql w
  = (fst (srv_execute E sql connection (w_server w)),
     set_server (snd (srv_execute E sql connection (w_server w)))
                (add_event (EvExecute sql) w)).
Proof.
  unfold DatabaseModel.cursor_execute, bind, log, modify, gets, lift. cbn.
  destruct (srv_execute E sql connection (w_server w)) as [r srv']. reflexivity.
Qed.

(** The comprehension of [get_all_databases] on rows that each carry one
    name is the filter that drops the protected names. *)
Lemma non_system_names_filter (reported : list string) :
  DatabaseModel.non_system_names (map (fun n => [PStr n]) reported)
  = Ok (map PStr (filter (fun n => n ∉ Config.SYSTEM_DATABASES) reported)).
Proof.
  induction reported as [|n l IH]; [reflexivity|].
  cbn [map DatabaseModel.non_system_names py_first]. rewrite IH.
  rewrite filter_cons.
  destruct (decide (n ∉ Config.SYSTEM_DATABASES)) as [Hn|Hn].
  - apply py_in_strs_not_elem_of in Hn. rewrite Hn. reflexivity.
  - assert (py_in_strs (PStr n) Config.SYSTEM_DATABASES = true) as ->; [|reflexivity].
    apply py_in_strs_elem_of. destruct (decide (n ∈ Config.SYSTEM_DATABASES)); tauto.
Qed.

(** C1. Dropping a database whose name is in the protected list raises
    "Cannot drop system database" and leaves the world exactly as it was:
    no connection is opened, no statement is issued, the server keeps its
    databases.  Through the route, the answer is the error envelope with
    that message, and the only addition to the log is the entry of the
    call itself. *)
Theorem drop_system_database_rejected (database_name : string) (w : world E) :
  database_name ∈ Config.SYSTEM_DATABASES ->
  DatabaseModel.drop_database database_name w
    = (Raise (Exc Exception "Cannot drop system database"), w)
  /\ database_controller.drop_database database_name w
    = (Ok (failure 500 "Cannot drop system database"),
       add_event (EvCall "DatabaseModel.drop_database") w).
Proof.
  intros Hin.
  assert (DatabaseModel.drop_database (E := E) database_name
          = raise (Exc Exception "Cannot drop system database")) as Hdrop.
  { unfold DatabaseModel.drop_database.
    apply py_in_strs_elem_of in Hin. rewrite Hin. reflexivity. }
  split.
  - rewrite Hdrop. reflexivity.
  - unfold database_controller.drop_database. rewrite Hdrop. reflexivity.
Qed.

(** C2. When the server accepts the connection and reports a list of
    database names, listing the databases returns exactly the reported
    names that are not in the protected list, in the reported order; no
    protected name is ever in the result.  The route returns that list. *)
Theorem get_all_databases_excludes_system
    (w : world E) (reported : list string) (srv' : server E) :
  srv_connect E None (w_server w) = None ->
  srv_execute E "SHOW DATABASES" None (w_server w)
    = (Ok (map (fun n => [PStr n]) reported), srv') ->
  exists listed : list string,
    fst (DatabaseModel.get_all_databases w) = Ok (map PStr listed)
    /\ listed = filter (fun n => n ∉ Config.SYSTEM_DATABASES) reported
    /\ (forall n, n ∈ listed <-> n ∈ reported /\ n ∉ Config.SYSTEM_DATABASES)
    /\ fst (database_controller.get_databases w)
       = Ok (jsonify [("success", PBool true);
                      ("databases", PList (map PStr listed))]).
Proof.
  intros Hconn Hrows.
  exists (filter (fun n => n ∉ Config.SYSTEM_DATABASES) reported).
  assert (forall w0 : world E, w_server w0 = w_server w ->
            fst (DatabaseModel.get_all_databases w0)
            = Ok (map PStr (filter (fun n => n ∉ Config.SYSTEM_DATABASES) reported)))
    as Hrun.
  { intros w0 Hsrv.
    unfold DatabaseModel.get_all_databases, DatabaseModel.with_connection.
    rewrite (bind_ok _ _ _ _ _ (get_connection_ok None w0 ltac:(congruence))).
    unfold try_finally, bind. rewrite cursor_execute_eq.
    cbn. rewrite Hsrv, Hrows. cbn.
    rewrite non_system_names_filter. reflexivity. }
  split; [apply Hrun; reflexivity|].
  split; [reflexivity|].
  split.
  - intros n. rewrite list_elem_of_filter. tauto.
  - unfold database_controller.get_databases, call, try_except, bind, log, modify.
    cbn.
    specialize (Hrun (add_event (EvCall "DatabaseModel.get_all_databases") w) eq_refl).
    destruct (DatabaseModel.get_all_databases _) as [[l|e] w1]; cbn in Hrun.
    + inversion Hrun. reflexivity.
    + discriminate Hrun.
Qed.

End DatabaseFacts.


(** ** Paths *)

Section PathFacts.
Context {E : Env}.

Lemma str_last_append (a b : string) (x : ascii) :
  str_last b = Some x -> str_last (a +:+ b) = Some x.
Proof.
  unfold str_last. intros Hb. induction a as [|c a IH]; [exact Hb|].
  change (last (c :: String.list_ascii_of_string (a +:+ b)) = Some x).
  rewrite last_cons, IH. reflexivity.
Qed.

Lemma str_last_join (a b : string) (x : ascii) :
  str_last b = Some x -> str_last (os_path_join a b) = Some x.
Proof.
  intros Hb. unfold os_path_join.
  destruct (starts_with_slash b); [exact Hb|].
  destruct (String.eqb a "" || ends_with_slash a).
  - apply str_last_append, Hb.
  - apply str_last_append, str_last_append, Hb.
Qed.

Lemma backup_filename_last (database_name table_name : value) (timestamp : string) :
  str_last (BackupModel.backup_filename (E := E) database_name table_name timestamp)
  = Some "l"%char.
Proof.
  unfold BackupModel.backup_filename.
  destruct (py_truthy table_name); repeat apply str_last_append; reflexivity.
Qed.

Lemma metadata_file_last : str_last (Config.METADATA_FILE E) = Some "n"%char.
Proof. unfold Config.METADATA_FILE. apply str_last_join. reflexivity. Qed.

(** A dump is never written over the metadata document: its name ends in
    [.sql], the document's in [.json]. *)
Lemma dump_path_not_metadata (database_name table_name : value) (timestamp : string) :
  os_path_join (Config.BACKUP_DIR E)
    (BackupModel.backup_filename (E := E) database_name table_name timestamp)
  <> Config.METADATA_FILE E.
Proof.
  intros Heq. apply (f_equal str_last) in Heq.
  rewrite metadata_file_last in Heq.
  rewrite (str_last_join _ _ _ (backup_filename_last _ _ _)) in Heq.
  discriminate Heq.
Qed.

End PathFacts.

(** ** The two JSON stores *)

Section StoreFacts.
Context {E : Env}.

Lemma get_metadata_eq (w : world E) :
  BackupModel.get_metadata w
  = (match w_fs w !! Config.METADATA_FILE E with
     | None => Ok (PList [])
     | Some c =>
         if w_readable w (Config.METADATA_FILE E) then json_load c
         else Raise (Exc OSError "Permission denied")
     end, w).
Proof.
  unfold BackupModel.get_metadata, bind, os_path_exists, open_read, gets, lift, ret.
  cbn. destruct (w_fs w !! Config.METADATA_FILE E) as [c|] eqn:Hfile; [|reflexivity].
  cbn. rewrite Hfile.
  destruct (w_readable w (Config.METADATA_FILE E)); reflexivity.
Qed.

Lemma save_metadata_eq (metadata : value) (w : world E) :
  BackupModel.save_metadata metadata w
  = if w_writable w (Config.METADATA_FILE E)
    then (Ok tt, set_fs (<[Config.METADATA_FILE E := Json metadata]> (w_fs w)) w)
    else (Raise (Exc OSError "Permission denied"), w).
Proof.
  unfold BackupModel.save_metadata, bind, open_write, file_put, modify.
  destruct (w_writable w (Config.METADATA_FILE E)); [|reflexivity].
  unfold set_fs. cbn. rewrite insert_insert_eq. reflexivity.
Qed.

(** Reading the counter never raises and never changes anything. *)
Lemma load_restore_count_eq (w : world E) :
  BackupModel._load_restore_count w
  = (Ok (stats_reading (E := E) (w_fs w !! Config.RESTORE_STATS_FILE E)
                       (w_readable w (Config.RESTORE_STATS_FILE E))), w).
Proof.
  unfold BackupModel._load_restore_count, try_except, bind, os_path_exists,
    open_read, gets, lift, ret, stats_reading.
  cbn. destruct (w_fs w !! Config.RESTORE_STATS_FILE E) as [c|] eqn:Hfile;
    [|reflexivity].
  cbn. rewrite Hfile.
  destruct (w_readable w (Config.RESTORE_STATS_FILE E)); [|destruct c; reflexivity].
  destruct c as [data|s]; [|reflexivity].
  cbn. destruct (py_get data "total_restored" (PInt 0)) as [v|e]; [|reflexivity].
  cbn. destruct (py_int E v); reflexivity.
Qed.

Lemma restore_count_eq (w : world E) :
  restore_count w = stats_reading (E := E) (w_fs w !! Config.RESTORE_STATS_FILE E)
                                  (w_readable w (Config.RESTORE_STATS_FILE E)).
Proof. unfold restore_count. rewrite load_restore_count_eq. reflexivity. Qed.

(** Writing the counter never raises; it changes the stats file when the
    file may be written and nothing otherwise. *)
Lemma save_restore_count_eq (count : Z) (w : world E) :
  BackupModel._save_restore_count count w
  = (Ok tt,
     if w_writable w (Config.RESTORE_STATS_FILE E)
     then set_fs (<[Config.RESTORE_STATS_FILE E :=
                      Json (PDict [("total_restored", PInt count)])]> (w_fs w)) w
     else w).
Proof.
  unfold BackupModel._save_restore_count, try_except, bind, open_write, file_put,
    modify, ret.
  destruct (w_writable w (Config.RESTORE_STATS_FILE E)); [|reflexivity].
  unfold set_fs. cbn. rewrite insert_insert_eq. reflexivity.
Qed.

Lemma bump_restore_count_eq (w : world E) :
  BackupModel.bump_restore_count w
  = (Ok tt,
     if w_writable w (Config.RESTORE_STATS_FILE E)
     then set_fs (<[Config.RESTORE_STATS_FILE E :=
                      Json (PDict [("total_restored",
                                    PInt (restore_count w + 1))])]> (w_fs w)) w
     else w).
Proof.
  unfold BackupModel.bump_restore_count, try_except, bind.
  rewrite load_restore_count_eq, save_restore_count_eq, restore_count_eq.
  reflexivity.
Qed.

(** After a bump that could be written, the counter reads one more. *)
Lemma restore_count_after_bump (w : world E) :
  w_readable w (Config.RESTORE_STATS_FILE E) = true ->
  w_writable w (Config.RESTORE_STATS_FILE E) = true ->
  restore_count (snd (BackupModel.bump_restore_count w)) = restore_count w + 1.
Proof.
  intros Hr Hw. rewrite bump_restore_count_eq, Hw. cbn.
  rewrite (restore_count_eq (set_fs _ w)). cbn.
  rewrite lookup_insert_eq, Hr. reflexivity.
Qed.

(** A successful [add_backup_entry] found a JSON array (or no file) and
    left the array with the new entry in front. *)
Lemma add_backup_entry_ok_inv (database table : value) (filename : string)
    (size : Z) (w w' : world E) (entry : value) :
  BackupModel.add_backup_entry database table filename size w = (Ok entry, w') ->
  exists l,
    stored_entries w = Some l
    /\ stored_entries w' = Some (entry :: l)
    /\ py_getitem entry "filename" = Ok (PStr filename).
Proof.
  unfold BackupModel.add_backup_entry, bind. rewrite get_metadata_eq.
  unfold stored_entries.
  destruct (w_fs w !! Config.METADATA_FILE E) as [c|] eqn:Hfile.
  - destruct (w_readable w (Config.METADATA_FILE E)); [|discriminate].
    destruct c as [v|s]; [|discriminate]. cbn.
    destruct v as [| | | |l|]; cbn; try discriminate.
    rewrite save_metadata_eq. cbn.
    destruct (w_writable w (Config.METADATA_FILE E)); [|discriminate].
    cbn. intros H. inversion H; subst. cbn.
    exists l. rewrite lookup_insert_eq. auto.
  - cbn. rewrite save_metadata_eq. cbn.
    destruct (w_writable w (Config.METADATA_FILE E)); [|discriminate].
    cbn. intros H. inversion H; subst. cbn.
    exists []. rewrite lookup_insert_eq. auto.
Qed.

End StoreFacts.


(** ** Creating backups *)

Section BackupFacts.
Context {E : Env}.

Lemma stored_entries_ext (w1 w2 : world E) :
  w_fs w1 !! Config.METADATA_FILE E = w_fs w2 !! Config.METADATA_FILE E ->
  stored_entries w1 = stored_entries w2.
Proof. unfold stored_entries. intros ->. reflexivity. Qed.

(** A call wrapped in [except CalledProcessError] whose handler raises
    again returns only what the call itself returned. *)
Lemma try_called_process_error_ok_inv {A} (c : M E A)
    (h : Z -> option string -> string -> M E A) (w w' : world E) (a : A) :
  (forall rc out err w1, is_ok (fst (h rc out err w1)) = false) ->
  try_except_called_process_error c h w = (Ok a, w') ->
  c w = (Ok a, w').
Proof.
  intros Hh. unfold try_except_called_process_error.
  destruct (c w) as [[a0|[cls msg|rc out err]] w1]; try (intros H; exact H).
  intros H. specialize (Hh rc out err w1). rewrite H in Hh. discriminate Hh.
Qed.

Lemma open_write_ok_inv (path : string) (w w' : world E) :
  open_write path w = (Ok tt, w') ->
  w' = set_fs (<[path := Text ""]> (w_fs w)) w.
Proof.
  unfold open_write. destruct (w_writable w path); intros H; inversion H.
  reflexivity.
Qed.

(** Running a tool changes the server and the log, never the files. *)
Lemma subprocess_run_keeps_files (cmd : list value) (env : list (string * string))
    (stdin : option string) :
  keeps_files (E := E) (subprocess_run cmd env stdin).
Proof.
  intros w. unfold subprocess_run, bind, lift, log, modify, gets.
  destruct (cmd_args cmd) as [args|e]; cbn; [|repeat split].
  destruct (run_process E args env stdin (w_server w)) as [[rc out err|e] srv'];
    cbn; repeat split.
Qed.

Lemma run_into_file_ok_inv (cmd : list value) (filepath : string) (w w' : world E) :
  BackupModel.run_into_file cmd filepath w = (Ok tt, w') ->
  exists out, w_fs w' = <[filepath := Text out]> (w_fs w).
Proof.
  unfold BackupModel.run_into_file, bind.
  pose proof (subprocess_run_keeps_files cmd [] None w) as (Hfs & _ & _).
  destruct (subprocess_run cmd [] None w) as [[[[rc out] err]|e] w1];
    [|discriminate].
  cbn in Hfs. unfold file_put, modify. cbn.
  destruct (rc =? 0); cbn; [|discriminate].
  intros H. inversion H; subst. exists out. cbn. rewrite Hfs. reflexivity.
Qed.

Lemma os_path_getsize_inv (path : string) (w w' : world E) r :
  os_path_getsize path w = (r, w') -> w' = w.
Proof.
  unfold os_path_getsize. destruct (w_fs w !! path); intros H; inversion H;
    reflexivity.
Qed.

(** A backup that succeeds found the metadata store holding a sequence
    and left it with one new entry in front, named after the dump. *)
Lemma backup_database_ok_inv (database_name table_name : value)
    (w w' : world E) (r : value) :
  BackupModel.backup_database database_name table_name w = (Ok r, w') ->
  exists entry l,
    stored_entries w = Some l
    /\ stored_entries w' = Some (entry :: l)
    /\ py_getitem entry "filename" = py_getitem r "filename".
Proof.
  intros H. unfold BackupModel.backup_database in H.
  apply bind_ok_inv in H as (t & w0 & Hnow & H).
  assert (w_fs w0 = w_fs w) as Hfs0 by (unfold now in Hnow; inversion Hnow; reflexivity).
  cbv zeta in H.
  set (filename := BackupModel.backup_filename database_name table_name _) in H.
  set (filepath := os_path_join (Config.BACKUP_DIR E) filename) in H.
  apply try_called_process_error_ok_inv in H.
  2:{ intros rc out err w1. unfold bind, os_path_exists, gets, raise. cbn.
      destruct (w_fs w1 !! filepath); cbn; [|reflexivity].
      destruct (os_remove filepath w1) as [[[]|e] w2]; reflexivity. }
  apply bind_ok_inv in H as ([] & w1 & Hopen & H).
  apply open_write_ok_inv in Hopen.
  apply bind_ok_inv in H as ([] & w2 & Hrun & H).
  apply run_into_file_ok_inv in Hrun as [out Hfs2].
  apply bind_ok_inv in H as (size & w3 & Hsize & H).
  apply os_path_getsize_inv in Hsize. subst w3.
  apply bind_ok_inv in H as (entry & w4 & Hadd & H).
  apply add_backup_entry_ok_inv in Hadd as (l & Hl & Hl' & Hname).
  unfold ret in H. assert (w4 = w' /\ py_getitem r "filename" = Ok (PStr filename))
    as [-> Hr] by (inversion H; auto).
  exists entry, l. split; [|split].
  - rewrite <- Hl. symmetry. apply stored_entries_ext.
    rewrite Hfs2, Hopen. cbn.
    rewrite !lookup_insert_ne by apply dump_path_not_metadata.
    rewrite Hfs0. reflexivity.
  - exact Hl'.
  - rewrite Hname, Hr. reflexivity.
Qed.

(** A run of successful backups puts its entries in front of the store,
    the last created first, and keeps what was stored behind them. *)
Lemma backup_all_ok_inv (requests : list (value * value)) :
  forall (w w' : world E) (results l : list value),
    backup_all requests w = (Ok results, w') ->
    stored_entries w = Some l ->
    exists entries,
      length entries = length requests
      /\ stored_entries w' = Some (rev entries ++ l)
      /\ map filename_of entries = map filename_of results.
Proof.
  induction requests as [|[database_name table_name] rest IH];
    intros w w' results l Hrun Hl.
  - cbn in Hrun. inversion Hrun; subst. exists []. auto.
  - cbn [backup_all] in Hrun.
    apply bind_ok_inv in Hrun as (r & w1 & Hfirst & Hrun).
    apply bind_ok_inv in Hrun as (rs & w2 & Hrest & Hret).
    inversion Hret; subst. clear Hret.
    apply backup_database_ok_inv in Hfirst as (entry & l0 & Hl0 & Hl1 & Hname).
    rewrite Hl in Hl0. inversion Hl0; subst l0. clear Hl0.
    destruct (IH _ _ _ _ Hrest Hl1) as (entries & Hlen & Hstore & Hnames).
    exists (entry :: entries). split; [|split].
    + cbn. rewrite Hlen. reflexivity.
    + rewrite Hstore. cbn [rev]. rewrite <- app_assoc. reflexivity.
    + cbn [map]. unfold filename_of at 1 3. rewrite Hname, Hnames. reflexivity.
Qed.

(** C3. Every successful backup creation prepends its entry to the
    metadata sequence: [add_backup_entry] leaves the new entry in front of
    what was stored, so does a whole [backup_database], and after any run
    of successful creations the store lists the new entries from the most
    recent to the oldest, followed by the entries that were there before,
    in their former order. *)
Theorem backup_entries_newest_first :
  (forall (database table : value) (filename : string) (size : Z)
          (w w' : world E) (entry : value),
      BackupModel.add_backup_entry database table filename size w = (Ok entry, w') ->
      exists l, stored_entries w = Some l /\ stored_entries w' = Some (entry :: l))
  /\ (forall (database_name table_name : value) (w w' : world E) (r : value),
      BackupModel.backup_database database_name table_name w = (Ok r, w') ->
      exists entry l,
        stored_entries w = Some l
        /\ stored_entries w' = Some (entry :: l)
        /\ filename_of entry = filename_of r)
  /\ (forall (requests : list (value * value)) (w w' : world E)
             (results l : list value),
      backup_all requests w = (Ok results, w') ->
      stored_entries w = Some l ->
      exists entries,
        length entries = length requests
        /\ stored_entries w' = Some (rev entries ++ l)
        /\ map filename_of entries = map filename_of results).
Proof.
  split; [|split].
  - intros database table filename size w w' entry H.
    apply add_backup_entry_ok_inv in H as (l & H1 & H2 & _). eauto.
  - intros database_name table_name w w' r H.
    apply backup_database_ok_inv in H. exact H.
  - intros requests w w' results l. apply backup_all_ok_inv.
Qed.

End BackupFacts.


(** ** A dump that fails *)

Section FailedDump.
Context {E : Env}.

(** C6, as the code has it. When the dump tool runs and exits with an
    error, the backup fails with "Backup failed: " followed by the tool's
    diagnostic output, no file is left at the computed path, every other
    file of the backup directory is as before, and the metadata store is
    unchanged.  The directory as a whole is as it was before the call
    whenever no file existed at the computed path. *)
Theorem failed_dump_leaves_no_file
    (database_name table_name : value) (w : world E)
    (args : list string) (rc : Z) (out err : string) (srv' : server E) :
  w_writable w (dump_path database_name table_name w) = true ->
  cmd_args (BackupModel.mysqldump_cmd database_name table_name) = Ok args ->
  run_process E args [] None (w_server w) = (Completed rc out err, srv') ->
  rc <> 0 ->
  exists w',
    BackupModel.backup_database database_name table_name w
      = (Raise (Exc Exception ("Backup failed: " +:+ err)), w')
    /\ w_fs w' = delete (dump_path database_name table_name w) (w_fs w)
    /\ w_fs w' !! dump_path database_name table_name w = None
    /\ (forall path, path <> dump_path database_name table_name w ->
          w_fs w' !! path = w_fs w !! path)
    /\ stored_entries w' = stored_entries w
    /\ (w_fs w !! dump_path database_name table_name w = None -> w_fs w' = w_fs w).
Proof.
  intros Hwritable Hargs Hrun Hrc.
  set (filepath := dump_path database_name table_name w) in *.
  assert (exists w',
    BackupModel.backup_database database_name table_name w
      = (Raise (Exc Exception ("Backup failed: " +:+ err)), w')
    /\ w_fs w' = delete filepath (w_fs w)) as (w' & Hres & Hfs).
  { unfold BackupModel.backup_database, bind at 1, now.
    fold (dump_path database_name table_name w). fold filepath.
    unfold try_except_called_process_error, bind at 1, open_write.
    cbn [w_writable set_ticks]. rewrite Hwritable.
    unfold bind at 1, BackupModel.run_into_file, bind at 1, subprocess_run,
      bind at 1, lift.
    rewrite Hargs. unfold bind, log, modify, gets, file_put, raise, ret.
    cbn. rewrite Hrun. cbn.
    apply Z.eqb_neq in Hrc. rewrite Hrc. cbn.
    unfold os_path_exists, gets. cbn. rewrite lookup_insert_eq. cbn.
    unfold os_remove. cbn. rewrite lookup_insert_eq. cbn.
    eexists. split; [reflexivity|]. cbn.
    rewrite !delete_insert_eq. reflexivity. }
  exists w'. split; [exact Hres|]. split; [exact Hfs|].
  split; [rewrite Hfs; apply lookup_delete_eq|].
  split; [intros path Hne; rewrite Hfs; apply lookup_delete_ne; congruence|].
  split.
  - apply stored_entries_ext. rewrite Hfs. apply lookup_delete_ne.
    apply dump_path_not_metadata.
  - intros Habsent. rewrite Hfs. apply delete_id. exact Habsent.
Qed.

End FailedDump.


(** ** Deleting backups, and a damaged metadata document *)

Section DeleteFacts.
Context {E : Env}.

Lemma metadata_path_eq :
  os_path_join (Config.BACKUP_DIR E) "backup_metadata.json" = Config.METADATA_FILE E.
Proof. reflexivity. Qed.

(** On a sequence of well-formed entries the comprehension of
    [remove_backup_entry] keeps the entries with another file name. *)
Lemma entries_without_filter (filename : string) (l : list value) :
  Forall has_filename l ->
  BackupModel.entries_without filename l = Ok (other_entries filename l).
Proof.
  induction 1 as [|m l [name Hname] _ IH]; [reflexivity|].
  cbn [BackupModel.entries_without other_entries List.filter].
  unfold names_file. unfold filename_of in Hname |- *. rewrite Hname, IH.
  fold (other_entries filename l).
  destruct (py_eq_str name filename); reflexivity.
Qed.

(** Deleting a backup stored at another path than the metadata document
    removes the entries with its file name and keeps the others in order,
    whether the file exists or not. *)
Lemma delete_backup_removes_entries (filename : string) (w : world E) (l : list value) :
  os_path_join (Config.BACKUP_DIR E) filename <> Config.METADATA_FILE E ->
  stored_entries w = Some l ->
  Forall has_filename l ->
  w_readable w (Config.METADATA_FILE E) = true ->
  w_writable w (Config.METADATA_FILE E) = true ->
  exists w',
    BackupModel.delete_backup filename w = (Ok true, w')
    /\ stored_entries w' = Some (other_entries filename l)
    /\ w_fs w' !! os_path_join (Config.BACKUP_DIR E) filename = None.
Proof.
  intros Hne Hl Hwf Hr Hw.
  set (filepath := os_path_join (Config.BACKUP_DIR E) filename) in *.
  assert (forall w1 : world E,
            w_fs w1 !! Config.METADATA_FILE E = w_fs w !! Config.METADATA_FILE E ->
            w_readable w1 = w_readable w -> w_writable w1 = w_writable w ->
            BackupModel.remove_backup_entry filename w1
            = (Ok tt, set_fs (<[Config.METADATA_FILE E :=
                                  Json (PList (other_entries filename l))]> (w_fs w1)) w1))
    as Hremove.
  { intros w1 Hfs1 Hr1 Hw1.
    unfold BackupModel.remove_backup_entry, bind. rewrite get_metadata_eq.
    rewrite Hfs1, Hr1, Hr. unfold stored_entries in Hl.
    destruct (w_fs w !! Config.METADATA_FILE E) as [[[| | | |l0|]|s]|];
      try discriminate; inversion Hl; subst; cbn;
      rewrite ?(entries_without_filter _ _ Hwf); cbn;
      rewrite save_metadata_eq, Hw1, Hw; reflexivity. }
  unfold BackupModel.delete_backup, bind at 1, os_path_exists, gets.
  fold filepath. cbn.
  destruct (w_fs w !! filepath) as [c|] eqn:Hfile.
  - unfold bind at 1, os_remove. rewrite Hfile. cbn.
    unfold bind. rewrite Hremove; cbn;
      [| apply lookup_delete_ne; exact Hne | reflexivity | reflexivity].
    eexists. split; [reflexivity|]. unfold stored_entries. cbn.
    rewrite lookup_insert_eq. split; [reflexivity|].
    rewrite lookup_insert_ne by congruence. apply lookup_delete_eq.
  - unfold bind, ret. cbn. rewrite Hremove; cbn; try reflexivity.
    eexists. split; [reflexivity|]. unfold stored_entries. cbn.
    rewrite lookup_insert_eq. split; [reflexivity|].
    rewrite lookup_insert_ne by congruence. exact Hfile.
Qed.

(** C4, at the file name of the metadata document itself. The delete
    removes the document, reads the store back as empty and writes the
    empty sequence: every entry is gone, whatever its file name, and the
    call and the route report success. *)
Theorem delete_backup_of_metadata_file_clears_store
    (w : world E) (entry : value) (l : list value) :
  w_fs w !! Config.METADATA_FILE E = Some (Json (PList (entry :: l))) ->
  w_writable w (Config.METADATA_FILE E) = true ->
  exists w',
    BackupModel.delete_backup "backup_metadata.json" w = (Ok true, w')
    /\ stored_entries w = Some (entry :: l)
    /\ stored_entries w' = Some []
    /\ fst (backup_controller.delete_backup "backup_metadata.json" w)
       = Ok (jsonify [("success", PBool true);
                      ("message", PStr "Backup deleted successfully")]).
Proof.
  intros Hfile Hw.
  assert (forall w0 : world E,
            w_fs w0 = w_fs w -> w_writable w0 = w_writable w ->
            exists w',
              BackupModel.delete_backup "backup_metadata.json" w0 = (Ok true, w')
              /\ stored_entries w' = Some []) as Hrun.
  { intros w0 Hfs0 Hw0.
    unfold BackupModel.delete_backup. rewrite metadata_path_eq.
    unfold bind at 1, os_path_exists, gets. cbn. rewrite Hfs0, Hfile.
    unfold bind at 1, os_remove. rewrite Hfs0, Hfile. cbn.
    unfold bind at 1, BackupModel.remove_backup_entry, bind at 1.
    rewrite get_metadata_eq. cbn. rewrite lookup_delete_eq.
    unfold bind, lift, ret. cbn. rewrite save_metadata_eq. cbn. rewrite Hw0, Hw.
    eexists. split; [reflexivity|]. unfold stored_entries. cbn.
    rewrite lookup_insert_eq. reflexivity. }
  destruct (Hrun w eq_refl eq_refl) as (w' & Hdel & Hstore).
  exists w'. split; [exact Hdel|]. split; [|split; [exact Hstore|]].
  - unfold stored_entries. rewrite Hfile. reflexivity.
  - destruct (Hrun (add_event (EvCall "BackupModel.delete_backup") w) eq_refl eq_refl)
      as (w'' & Hdel' & _).
    unfold backup_controller.delete_backup.
    rewrite (handler_call_ok _ _ _ _ _ _ Hdel'). reflexivity.
Qed.

End DeleteFacts.


Section MalformedMetadata.
Context {E : Env}.

(** Unlike the stats file, a metadata file that is present but is not
    JSON makes the read raise. *)
Lemma get_metadata_malformed (w : world E) (s : string) :
  w_fs w !! Config.METADATA_FILE E = Some (Text s) ->
  exists e, BackupModel.get_metadata w = (Raise e, w).
Proof.
  intros H. rewrite get_metadata_eq, H.
  destruct (w_readable w (Config.METADATA_FILE E)); cbn; eauto.
Qed.

Lemma get_backup_stats_malformed (w : world E) (s : string) :
  w_fs w !! Config.METADATA_FILE E = Some (Text s) ->
  exists e, BackupModel.get_backup_stats w = (Raise e, w).
Proof.
  intros H. destruct (get_metadata_malformed w s H) as [e He].
  exists e. unfold BackupModel.get_backup_stats. apply bind_raise. exact He.
Qed.

Lemma backup_database_malformed (database_name table_name : value)
    (w : world E) (s : string) :
  w_fs w !! Config.METADATA_FILE E = Some (Text s) ->
  exists e w', BackupModel.backup_database database_name table_name w = (Raise e, w').
Proof.
  intros H.
  destruct (BackupModel.backup_database database_name table_name w)
    as [[r|e] w'] eqn:Hrun; [|eauto].
  apply backup_database_ok_inv in Hrun as (entry & l & Hl & _).
  unfold stored_entries in Hl. rewrite H in Hl. discriminate Hl.
Qed.

Lemma delete_backup_malformed (filename : string) (w : world E) (s : string) :
  os_path_join (Config.BACKUP_DIR E) filename <> Config.METADATA_FILE E ->
  w_fs w !! Config.METADATA_FILE E = Some (Text s) ->
  exists e w', BackupModel.delete_backup filename w = (Raise e, w').
Proof.
  intros Hne H.
  assert (forall w1 : world E,
            w_fs w1 !! Config.METADATA_FILE E = Some (Text s) ->
            exists e, BackupModel.remove_backup_entry filename w1 = (Raise e, w1))
    as Hremove.
  { intros w1 H1. destruct (get_metadata_malformed w1 s H1) as [e He].
    exists e. unfold BackupModel.remove_backup_entry. apply bind_raise. exact He. }
  unfold BackupModel.delete_backup, bind at 1, os_path_exists, gets. cbn.
  destruct (w_fs w !! os_path_join (Config.BACKUP_DIR E) filename) as [c|] eqn:Hfile.
  - unfold bind at 1, os_remove. rewrite Hfile. cbn.
    edestruct Hremove as [e He]; [|unfold bind; rewrite He; eauto].
    cbn. rewrite lookup_delete_ne by exact Hne. exact H.
  - unfold bind at 1, ret. cbn.
    destruct (Hremove w H) as [e He]. unfold bind. rewrite He. eauto.
Qed.

(** C10, as the code has it. With a metadata file that is present but is
    not JSON, listing the metadata, computing the statistics, creating a
    backup (for a request that names a database) and deleting a backup
    stored at another path than the metadata file all answer with the
    error envelope and HTTP status 500. *)
Theorem malformed_metadata_fails_with_500 (w : world E) (s : string) :
  w_fs w !! Config.METADATA_FILE E = Some (Text s) ->
  is_failure_500 (fst (backup_controller.get_metadata w))
  /\ is_failure_500 (fst (backup_controller.get_stats w))
  /\ (forall d : list (string * value),
        py_truthy (field d "database") = true ->
        is_failure_500 (fst (backup_controller.create_backup (Ok (PDict d)) w)))
  /\ (forall filename : string,
        os_path_join (Config.BACKUP_DIR E) filename <> Config.METADATA_FILE E ->
        is_failure_500 (fst (backup_controller.delete_backup filename w))).
Proof.
  intros H.
  assert (w_fs (add_event (EvCall "BackupModel.get_metadata") w)
            !! Config.METADATA_FILE E = Some (Text s)) as H1 by exact H.
  split; [|split; [|split]].
  - destruct (get_metadata_malformed _ s H1) as [e He].
    unfold backup_controller.get_metadata.
    rewrite (handler_call_raise _ _ _ _ _ _ He). eexists. reflexivity.
  - destruct (get_backup_stats_malformed
                (add_event (EvCall "BackupModel.get_backup_stats") w) s H) as [e He].
    unfold backup_controller.get_stats.
    rewrite (handler_call_raise _ _ _ _ _ _ He). eexists. reflexivity.
  - intros d Hd.
    destruct (backup_database_malformed (field d "database") (field d "table")
                (add_event (EvCall "BackupModel.backup_database") w) s H)
      as (e & w' & He).
    unfold backup_controller.create_backup, try_except.
    unfold bind at 1, lift at 1. unfold bind at 1, lift at 1, py_get.
    unfold bind at 1, lift at 1. fold (field d "database") (field d "table").
    rewrite Hd. cbn [negb].
    pose proof (handler_call_raise "BackupModel.backup_database" _
                  (fun result => ret (jsonify
                     [("success", PBool true);
                      ("message", PStr "Backup created successfully");
                      ("backup", result)])) _ _ _ He) as Hh.
    unfold try_except in Hh. rewrite Hh. eexists. reflexivity.
  - intros filename Hne.
    destruct (delete_backup_malformed filename
                (add_event (EvCall "BackupModel.delete_backup") w) s Hne H)
      as (e & w' & He).
    unfold backup_controller.delete_backup.
    rewrite (handler_call_raise _ _ _ _ _ _ He). eexists. reflexivity.
Qed.

End MalformedMetadata.


(** ** Computations that leave the files alone *)

Create HintDb files discriminated.

Section KeepsFiles.
Context {E : Env}.

Lemma same_files_refl (w : world E) : same_files w w.
Proof. repeat split. Qed.

Lemma same_files_trans (w1 w2 w3 : world E) :
  same_files w1 w2 -> same_files w2 w3 -> same_files w1 w3.
Proof.
  intros (H1 & H2 & H3) (H4 & H5 & H6). repeat split; congruence.
Qed.

Lemma keeps_files_ret {A} (a : A) : keeps_files (E := E) (ret a).
Proof. intros w. apply same_files_refl. Qed.

Lemma keeps_files_raise {A} (e : exn) : keeps_files (E := E) (raise (A := A) e).
Proof. intros w. apply same_files_refl. Qed.

Lemma keeps_files_lift {A} (r : result A) : keeps_files (E := E) (lift r).
Proof. intros w. apply same_files_refl. Qed.

Lemma keeps_files_log (ev : event) : keeps_files (E := E) (log ev).
Proof. intros w. repeat split. Qed.

Lemma keeps_files_bind {A B} (c : M E A) (k : A -> M E B) :
  keeps_files c -> (forall a, keeps_files (k a)) -> keeps_files (bind c k).
Proof.
  intros Hc Hk w. unfold bind. specialize (Hc w).
  destruct (c w) as [[a|e] w1]; cbn in Hc |- *; [|exact Hc].
  eapply same_files_trans; [exact Hc|]. apply Hk.
Qed.

Lemma keeps_files_try_except {A} (c : M E A) (h : exn -> M E A) :
  keeps_files c -> (forall e, keeps_files (h e)) -> keeps_files (try_except c h).
Proof.
  intros Hc Hh w. unfold try_except. specialize (Hc w).
  destruct (c w) as [[a|e] w1]; cbn in Hc |- *; [exact Hc|].
  eapply same_files_trans; [exact Hc|]. apply Hh.
Qed.

Lemma keeps_files_try_called_process_error {A} (c : M E A)
    (h : Z -> option string -> string -> M E A) :
  keeps_files c -> (forall rc out err, keeps_files (h rc out err)) ->
  keeps_files (try_except_called_process_error c h).
Proof.
  intros Hc Hh w. unfold try_except_called_process_error. specialize (Hc w).
  destruct (c w) as [[a|[cls msg|rc out err]] w1]; cbn in Hc |- *; try exact Hc.
  eapply same_files_trans; [exact Hc|]. apply Hh.
Qed.

Lemma keeps_files_try_finally {A} (c : M E A) (f : M E unit) :
  keeps_files c -> keeps_files f -> keeps_files (try_finally c f).
Proof.
  intros Hc Hf w. unfold try_finally. specialize (Hc w).
  destruct (c w) as [r w1]. cbn in Hc. specialize (Hf w1).
  destruct (f w1) as [[[]|e] w2]; cbn in Hf |- *;
    eapply same_files_trans; eauto.
Qed.

Lemma keeps_files_os_path_exists (path : string) :
  keeps_files (E := E) (os_path_exists path).
Proof. intros w. apply same_files_refl. Qed.

Lemma keeps_files_open_read (path : string) : keeps_files (E := E) (open_read path).
Proof.
  intros w. unfold open_read. destruct (w_fs w !! path); [|apply same_files_refl].
  destruct (w_readable w path); apply same_files_refl.
Qed.

Lemma keeps_files_get_connection (database : option string) :
  keeps_files (E := E) (DatabaseModel.get_connection database).
Proof.
  intros w. unfold DatabaseModel.get_connection, bind, log, modify, gets. cbn.
  destruct (srv_connect E database (w_server w)); repeat split.
Qed.

Lemma keeps_files_cursor_execute (connection : option string) (sql : string) :
  keeps_files (E := E) (DatabaseModel.cursor_execute connection sql).
Proof. intros w. rewrite cursor_execute_eq. repeat split. Qed.

End KeepsFiles.

#[export] Hint Resolve keeps_files_ret keeps_files_raise keeps_files_lift keeps_files_log
  keeps_files_bind keeps_files_try_except keeps_files_try_called_process_error
  keeps_files_try_finally keeps_files_os_path_exists keeps_files_open_read
  keeps_files_get_connection keeps_files_cursor_execute
  subprocess_run_keeps_files : files.

Section RestoreFacts.
Context {E : Env}.

Lemma keeps_files_create_database (database_name : value) :
  keeps_files (E := E) (DatabaseModel.create_database database_name).
Proof.
  unfold DatabaseModel.create_database, DatabaseModel.with_connection.
  auto 10 with files.
Qed.

Lemma keeps_files_run_from_file (cmd : list value) (env : list (string * string))
    (filepath : string) :
  keeps_files (E := E) (BackupModel.run_from_file cmd env filepath).
Proof.
  unfold BackupModel.run_from_file.
  apply keeps_files_bind; [auto with files|]. intros c.
  apply keeps_files_bind; [auto with files|]. intros [[rc out] err].
  destruct (rc =? 0); auto with files.
Qed.

(** The restore does not touch any file before the counter is bumped. *)
Lemma keeps_files_restore_load (filename target_database : value) :
  keeps_files (E := E) (restore_load filename target_database).
Proof.
  unfold restore_load. destruct filename; auto with files.
  apply keeps_files_bind; [auto with files|]. intros found.
  destruct (negb found); [auto with files|].
  pose proof keeps_files_create_database. pose proof keeps_files_run_from_file.
  auto 10 with files.
Qed.

(** [restore_backup] is [restore_load], then the bump of the counter,
    then [return True]. *)
Lemma restore_backup_eq (filename target_database : value) (w : world E) :
  BackupModel.restore_backup filename target_database w
  = match restore_load filename target_database w with
    | (Ok _, w1) => (Ok true, snd (BackupModel.bump_restore_count w1))
    | (Raise e, w1) => (Raise e, w1)
    end.
Proof.
  unfold BackupModel.restore_backup, restore_load.
  destruct filename as [| | |name| |]; try reflexivity.
  set (filepath := os_path_join (Config.BACKUP_DIR E) name).
  destruct (os_path_exists filepath w) as [[found|e] w0] eqn:Hfound;
    [|rewrite !(bind_raise _ _ _ _ _ Hfound); reflexivity].
  rewrite !(bind_ok _ _ _ _ _ Hfound).
  destruct (negb found); [reflexivity|].
  cbv zeta.
  set (target := BackupModel.restore_target name target_database).
  destruct (try_except (bind (DatabaseModel.create_database target) (fun _ => ret tt))
              (fun _ => ret tt) w0) as [[[]|e] w1] eqn:Hcreate;
    [|rewrite !(bind_raise _ _ _ _ _ Hcreate); reflexivity].
  rewrite !(bind_ok _ _ _ _ _ Hcreate).
  unfold try_except_called_process_error.
  destruct (BackupModel.run_from_file (BackupModel.mysql_cmd target)
              [("MYSQL_PWD", Config.MYSQL_PASSWORD)] filepath w1)
    as [[[]|[cls msg|rc out err]] w2] eqn:Hrun.
  - rewrite (bind_ok _ _ _ _ _ Hrun). unfold bind.
    rewrite bump_restore_count_eq. reflexivity.
  - rewrite (bind_raise _ _ _ _ _ Hrun). reflexivity.
  - rewrite (bind_raise _ _ _ _ _ Hrun). reflexivity.
Qed.

Lemma bump_same_perms (w : world E) :
  same_perms w (snd (BackupModel.bump_restore_count w)).
Proof.
  rewrite bump_restore_count_eq. cbn.
  destruct (w_writable w (Config.RESTORE_STATS_FILE E)); repeat split.
Qed.

Lemma restore_count_same_files (w w1 : world E) :
  same_files w w1 -> restore_count w1 = restore_count w.
Proof.
  intros (Hfs & Hr & _). rewrite !restore_count_eq, Hfs, Hr. reflexivity.
Qed.

(** What a successful restore did: the permissions are as before, and
    the counter reads one more when the stats file can be read and
    written. *)
Lemma restore_backup_ok_inv (filename target_database : value)
    (w w' : world E) (b : bool) :
  BackupModel.restore_backup filename target_database w = (Ok b, w') ->
  b = true
  /\ same_perms w w'
  /\ (w_readable w (Config.RESTORE_STATS_FILE E) = true ->
      w_writable w (Config.RESTORE_STATS_FILE E) = true ->
      restore_count w' = restore_count w + 1).
Proof.
  rewrite restore_backup_eq.
  pose proof (keeps_files_restore_load filename target_database w) as Hkeep.
  destruct (restore_load filename target_database w) as [[[]|e] w1];
    [|discriminate].
  cbn in Hkeep. intros H.
  assert (b = true /\ w' = snd (BackupModel.bump_restore_count w1)) as [-> ->]
    by (inversion H; auto).
  pose proof (bump_same_perms w1) as [Hr1 Hw1].
  destruct Hkeep as (Hfs & Hr & Hw).
  split; [reflexivity|]. split; [split; congruence|].
  intros Hreadable Hwritable.
  rewrite restore_count_after_bump by congruence.
  rewrite (restore_count_same_files w w1); [reflexivity|].
  repeat split; assumption.
Qed.

Lemma restore_all_ok_inv (requests : list (value * value)) :
  forall (w w' : world E),
    restore_all requests w = (Ok tt, w') ->
    w_readable w (Config.RESTORE_STATS_FILE E) = true ->
    w_writable w (Config.RESTORE_STATS_FILE E) = true ->
    restore_count w' = restore_count w + Z.of_nat (length requests).
Proof.
  induction requests as [|[filename target_database] rest IH];
    intros w w' Hrun Hr Hw.
  - cbn in Hrun. inversion Hrun; subst. cbn. lia.
  - cbn [restore_all] in Hrun.
    apply bind_ok_inv in Hrun as (b & w1 & Hfirst & Hrest).
    apply restore_backup_ok_inv in Hfirst as (_ & [Hr1 Hw1] & Hcount).
    rewrite (IH w1 w' Hrest) by congruence.
    rewrite Hcount by assumption. cbn [length]. lia.
Qed.

End RestoreFacts.


(** ** The restore counter *)

Section RestoreCounter.
Context {E : Env}.

(** C5. Reading the restore counter never raises and changes nothing;
    it yields 0 when the stats file is absent, cannot be read, does not
    hold JSON, holds JSON that is not an object, or holds a count that is
    not a number.  A successful restore makes the counter read one more
    (the stats file being readable and writable), so that a run of N
    successful restores adds N, and reads back N when it started without
    a stats file.  When the load tool has succeeded the restore reports
    success whether or not the counter could be written: with a stats file
    that cannot be written, the files and the counter stay as they were. *)
Theorem restore_counter_behaviour :
  (forall w : world E, exists n, BackupModel._load_restore_count w = (Ok n, w))
  /\ (forall w : world E,
        w_fs w !! Config.RESTORE_STATS_FILE E = None ->
        BackupModel._load_restore_count w = (Ok 0, w))
  /\ (forall w : world E,
        w_readable w (Config.RESTORE_STATS_FILE E) = false ->
        BackupModel._load_restore_count w = (Ok 0, w))
  /\ (forall (w : world E) (s : string),
        w_fs w !! Config.RESTORE_STATS_FILE E = Some (Text s) ->
        BackupModel._load_restore_count w = (Ok 0, w))
  /\ (forall (w : world E) (data : value),
        w_fs w !! Config.RESTORE_STATS_FILE E = Some (Json data) ->
        (forall d, data <> PDict d) ->
        BackupModel._load_restore_count w = (Ok 0, w))
  /\ (forall (w : world E) (d : list (string * value)) (v : value) (e : exn),
        w_fs w !! Config.RESTORE_STATS_FILE E = Some (Json (PDict d)) ->
        assoc "total_restored" d = Some v ->
        py_int E v = Raise e ->
        BackupModel._load_restore_count w = (Ok 0, w))
  /\ (forall (filename target_database : value) (w w' : world E) (b : bool),
        BackupModel.restore_backup filename target_database w = (Ok b, w') ->
        w_readable w (Config.RESTORE_STATS_FILE E) = true ->
        w_writable w (Config.RESTORE_STATS_FILE E) = true ->
        restore_count w' = restore_count w + 1)
  /\ (forall (requests : list (value * value)) (w w' : world E),
        restore_all requests w = (Ok tt, w') ->
        w_readable w (Config.RESTORE_STATS_FILE E) = true ->
        w_writable w (Config.RESTORE_STATS_FILE E) = true ->
        restore_count w' = restore_count w + Z.of_nat (length requests)
        /\ (w_fs w !! Config.RESTORE_STATS_FILE E = None ->
            restore_count w' = Z.of_nat (length requests)))
  /\ (forall (filename target_database : value) (w w1 : world E),
        restore_load filename target_database w = (Ok tt, w1) ->
        exists w',
          BackupModel.restore_backup filename target_database w = (Ok true, w')
          /\ (w_writable w (Config.RESTORE_STATS_FILE E) = false ->
              w_fs w' = w_fs w /\ restore_count w' = restore_count w)).
Proof.
  repeat apply conj.
  - intros w. rewrite load_restore_count_eq. eauto.
  - intros w H. rewrite load_restore_count_eq, H. reflexivity.
  - intros w H. rewrite load_restore_count_eq, H.
    destruct (w_fs w !! Config.RESTORE_STATS_FILE E) as [[v|s]|]; reflexivity.
  - intros w s H. rewrite load_restore_count_eq, H. reflexivity.
  - intros w data H Hdata. rewrite load_restore_count_eq, H. unfold stats_reading.
    destruct (w_readable w (Config.RESTORE_STATS_FILE E)); [|reflexivity].
    destruct data; try reflexivity. exfalso. eapply Hdata. reflexivity.
  - intros w d v e H Hv Hint. rewrite load_restore_count_eq, H.
    unfold stats_reading, py_get. rewrite Hv, Hint.
    destruct (w_readable w (Config.RESTORE_STATS_FILE E)); reflexivity.
  - intros filename target_database w w' b H.
    apply restore_backup_ok_inv in H as (_ & _ & H). exact H.
  - intros requests w w' H Hr Hw.
    pose proof (restore_all_ok_inv requests w w' H Hr Hw) as Hcount.
    split; [exact Hcount|].
    intros Habsent. rewrite Hcount, (restore_count_eq w), Habsent. reflexivity.
  - intros filename target_database w w1 Hload.
    pose proof (keeps_files_restore_load filename target_database w) as Hkeep.
    rewrite restore_backup_eq, Hload. rewrite Hload in Hkeep. cbn in Hkeep.
    eexists. split; [reflexivity|].
    intros Hw. destruct Hkeep as (Hfs1 & Hr1 & Hw1).
    rewrite bump_restore_count_eq. rewrite Hw1, Hw. cbn.
    split; [exact Hfs1|].
    apply restore_count_same_files. repeat split; assumption.
Qed.

End RestoreCounter.

(** ** The target of a restore *)

Section RestoreTarget.
Context {E : Env}.

Lemma split_char_head (c : ascii) (s : string) :
  exists w ws rest,
    split_char c s = w :: ws
    /\ s = w +:+ rest
    /\ (rest = EmptyString \/ exists r, rest = String c r)
    /\ (forall x, In x (String.list_ascii_of_string w) -> x <> c).
Proof.
  induction s as [|a s (w & ws & rest & Hsplit & Hs & Hrest & Hw)].
  - exists EmptyString, [], EmptyString. cbn. intuition.
  - cbn [split_char]. destruct (Ascii.eqb a c) eqn:Hac.
    + apply Ascii.eqb_eq in Hac. subst a.
      exists EmptyString, (split_char c s), (String c s). cbn.
      split; [reflexivity|]. split; [reflexivity|]. split; [eauto|]. intuition.
    + apply Ascii.eqb_neq in Hac. rewrite Hsplit.
      exists (String a w), ws, rest. cbn.
      split; [reflexivity|]. split; [rewrite Hs at 1; reflexivity|].
      split; [exact Hrest|].
      intros x [<-|Hx]; [exact Hac|]. apply Hw. exact Hx.
Qed.


End RestoreTarget.

(** ** Validation of request bodies *)

Section Validation.
Context {E : Env}.

Lemma field_absent (d : list (string * value)) (key : string) :
  assoc key d = None -> py_truthy (field d key) = false.
Proof. unfold field. intros ->. reflexivity. Qed.

Lemma field_empty (d : list (string * value)) (key : string) :
  assoc key d = Some (PStr "") -> py_truthy (field d key) = false.
Proof. unfold field. intros ->. reflexivity. Qed.

(** A body that is not a JSON object has no [get] method: the handler
    answers 500 before it looks at any field. *)
Lemma create_database_non_object_body (data : value) (w : world E) :
  (forall d, data <> PDict d) ->
  exists message,
    database_controller.create_database (Ok data) w = (Ok (failure 500 message), w).
Proof.
  intros Hdata.
  unfold database_controller.create_database, try_except, bind, lift, py_get.
  destruct data; try (eexists; reflexivity).
  exfalso. eapply Hdata. reflexivity.
Qed.

(** C8, as the code has it. For a request whose body is a JSON object in
    which the required field is absent or empty (or otherwise falsy: null,
    0, false, an empty list or object), the handler answers with status 400
    and success false, and the world is untouched: nothing is logged, so
    no model-layer method was entered. *)
Theorem missing_field_is_rejected_with_400 :
  (forall (d : list (string * value)) (w : world E),
      py_truthy (field d "name") = false ->
      database_controller.create_database (Ok (PDict d)) w
      = (Ok (failure 400 "Database name is required"), w))
  /\ (forall (d : list (string * value)) (w : world E),
      py_truthy (field d "database") = false ->
      backup_controller.create_backup (Ok (PDict d)) w
      = (Ok (failure 400 "Database name is required"), w))
  /\ (forall (d : list (string * value)) (w : world E),
      py_truthy (field d "filename") = false ->
      backup_controller.restore_backup (Ok (PDict d)) w
      = (Ok (failure 400 "Filename is required"), w))
  /\ (forall (d : list (string * value)) (w : world E),
      py_truthy (field d "username") = false
      \/ py_truthy (field d "password") = false ->
      user_controller.create_user (Ok (PDict d)) w
      = (Ok (failure 400 "Username and password are required"), w)).
Proof.
  repeat apply conj.
  - intros d w H.
    unfold database_controller.create_database, try_except, bind, lift, py_get.
    fold (field d "name"). rewrite H. reflexivity.
  - intros d w H.
    unfold backup_controller.create_backup, try_except, bind, lift, py_get.
    fold (field d "database"). rewrite H. reflexivity.
  - intros d w H.
    unfold backup_controller.restore_backup, try_except, bind, lift, py_get.
    fold (field d "filename"). rewrite H. reflexivity.
  - intros d w H.
    unfold user_controller.create_user, try_except, bind, lift, py_get.
    fold (field d "username") (field d "password").
    destruct H as [H|H]; rewrite H; [reflexivity|].
    destruct (py_truthy (field d "username")); reflexivity.
Qed.

End Validation.

(** ** Statistics *)

Section Statistics.
Context {E : Env}.

Lemma count_tables_fails (w : world E) :
  table_count_fails w ->
  exists w', BackupModel.count_tables w = (Ok (PInt 0), w').
Proof.
  unfold BackupModel.count_tables, try_except.
  intros [[msg Hconn]|[Hconn [e Hexec]]].
  - rewrite (bind_raise _ _ _ _ _ (get_connection_failed _ _ _ Hconn)).
    eexists. reflexivity.
  - rewrite (bind_ok _ _ _ _ _ (get_connection_ok _ _ Hconn)).
    unfold bind at 1. rewrite cursor_execute_eq. cbn [w_server add_event].
    rewrite Hexec. eexists. reflexivity.
Qed.

(** C9. When the table-count query cannot be executed while the metadata
    is readable, the statistics are still returned in full: the number of
    entries, the number of distinct databases among them, the restore
    counter, and [total_tables] equal to 0; the route answers with
    success. *)
Theorem stats_total_tables_falls_back_to_zero
    (w : world E) (l : list value) (dbs : list hkey) :
  fst (BackupModel.get_metadata w) = Ok (PList l) ->
  BackupModel.databases_of l [] = Ok dbs ->
  table_count_fails w ->
  let stats := PDict [ ("total_backups", PInt (Z.of_nat (length l)));
                       ("databases_backed_up", PInt (Z.of_nat (length dbs)));
                       ("total_restored", PInt (restore_count w));
                       ("total_tables", PInt 0) ] in
  fst (BackupModel.get_backup_stats w) = Ok stats
  /\ fst (backup_controller.get_stats w)
     = Ok (jsonify [("success", PBool true); ("stats", stats)]).
Proof.
  intros Hmeta Hdbs Hfails stats.
  assert (forall w0 : world E,
            same_files w w0 -> w_server w0 = w_server w ->
            exists w', BackupModel.get_backup_stats w0 = (Ok stats, w')) as Hrun.
  { intros w0 (Hfs & Hr & _) Hsrv.
    assert (BackupModel.get_metadata w0 = (Ok (PList l), w0)) as Hmeta0.
    { rewrite get_metadata_eq in Hmeta |- *. rewrite Hfs, Hr.
      cbn in Hmeta. rewrite Hmeta. reflexivity. }
    unfold BackupModel.get_backup_stats.
    rewrite (bind_ok _ _ _ _ _ Hmeta0).
    unfold bind at 1, lift at 1, py_iter. unfold bind at 1, lift at 1.
    rewrite Hdbs. unfold bind at 1. rewrite load_restore_count_eq.
    destruct (count_tables_fails w0) as [w' Hcount].
    { unfold table_count_fails. rewrite Hsrv. exact Hfails. }
    rewrite (bind_ok _ _ _ _ _ Hcount). unfold bind, lift, py_len, ret.
    exists w'. unfold stats. rewrite (restore_count_eq w), Hfs, Hr. reflexivity. }
  split.
  - destruct (Hrun w (same_files_refl w) eq_refl) as [w' ->]. reflexivity.
  - destruct (Hrun (add_event (EvCall "BackupModel.get_backup_stats") w))
      as [w' Hstats]; [repeat split | reflexivity |].
    unfold backup_controller.get_stats.
    rewrite (handler_call_ok _ _ _ _ _ _ Hstats). reflexivity.
Qed.

End Statistics.


(** * Further properties of the code *)

(** ** Connections and statements *)

Section ConnectionFacts.
Context {E : Env}.

Lemma with_connection_refused {A} (database : option string)
    (body : option string -> M E A) (w : world E) (msg : string) :
  srv_connect E database (w_server w) = Some msg ->
  DatabaseModel.with_connection database body w = refused database msg w.
Proof.
  intros H. unfold DatabaseModel.with_connection.
  rewrite (bind_raise _ _ _ _ _ (get_connection_failed _ _ _ H)). reflexivity.
Qed.

Lemma with_connection_accepted {A} (database : option string)
    (body : option string -> M E A) (w : world E) :
  srv_connect E database (w_server w) = None ->
  DatabaseModel.with_connection database body w
  = (fst (body database (add_event (EvConnect database) w)),
     add_event EvClose (snd (body database (add_event (EvConnect database) w)))).
Proof.
  intros H. unfold DatabaseModel.with_connection.
  rewrite (bind_ok _ _ _ _ _ (get_connection_ok _ _ H)).
  unfold try_finally, log, modify.
  destruct (body database (add_event (EvConnect database) w)) as [r w1].
  reflexivity.
Qed.

Lemma with_connection_run {A} (database : option string)
    (body : option string -> M E A) (w w1 : world E) (r : result A) :
  srv_connect E database (w_server w) = None ->
  body database (add_event (EvConnect database) w) = (r, w1) ->
  DatabaseModel.with_connection database body w = (r, add_event EvClose w1).
Proof.
  intros H Hbody. rewrite (with_connection_accepted _ _ _ H), Hbody. reflexivity.
Qed.

Lemma execute_commit_eq (connection : option string) (sql : string) (w : world E) :
  bind (DatabaseModel.cursor_execute connection sql)
       (fun _ => bind (log EvCommit) (fun _ => ret true)) w
  = match srv_execute E sql connection (w_server w) with
    | (Ok _, srv') =>
        (Ok true, add_event EvCommit (set_server srv' (add_event (EvExecute sql) w)))
    | (Raise e, srv') => (Raise e, set_server srv' (add_event (EvExecute sql) w))
    end.
Proof.
  unfold bind at 1. rewrite cursor_execute_eq.
  destruct (srv_execute E sql connection (w_server w)) as [[rows|e] srv'];
    reflexivity.
Qed.

Lemma statement_eq (database : option string) (sql : string) (w : world E) :
  srv_connect E database (w_server w) = None ->
  DatabaseModel.with_connection database (fun connection =>
    bind (DatabaseModel.cursor_execute connection sql)
         (fun _ => bind (log EvCommit) (fun _ => ret true))) w
  = statement_outcome database sql w.
Proof.
  intros H. rewrite (with_connection_accepted _ _ _ H), execute_commit_eq.
  unfold statement_outcome. cbn [w_server add_event].
  destruct (srv_execute E sql database (w_server w)) as [[rows|e] srv'];
    reflexivity.
Qed.

Lemma query_eq {A} (database : option string) (sql : string)
    (post : list (list value) -> result A) (w : world E) :
  srv_connect E database (w_server w) = None ->
  DatabaseModel.with_connection database (fun connection =>
    bind (DatabaseModel.cursor_execute connection sql)
         (fun rows => lift (post rows))) w
  = query_outcome database sql post w.
Proof.
  intros H. rewrite (with_connection_accepted _ _ _ H).
  unfold bind. rewrite cursor_execute_eq. unfold query_outcome.
  cbn [w_server add_event].
  destruct (srv_execute E sql database (w_server w)) as [[rows|e] srv'];
    reflexivity.
Qed.

(** X1. When the server refuses the connection, every operation of the
    database and user layers raises "Database connection failed: "
    followed by the driver's message; nothing but the attempt is logged:
    no statement is issued, nothing is committed or closed, and the
    server state is untouched. *)
Theorem refused_connection_is_wrapped (w : world E) (msg : string) :
  (forall database, srv_connect E database (w_server w) = Some msg) ->
  DatabaseModel.get_all_databases w = refused None msg w
  /\ (forall name, DatabaseModel.create_database name w = refused None msg w)
  /\ (forall name, name ∉ Config.SYSTEM_DATABASES ->
        DatabaseModel.drop_database name w = refused None msg w)
  /\ (forall db, DatabaseModel.get_tables db w = refused (Some db) msg w)
  /\ (forall db table columns,
        DatabaseModel.create_table db table columns w = refused (Some db) msg w)
  /\ (forall db table, DatabaseModel.drop_table db table w = refused (Some db) msg w)
  /\ (forall db table,
        DatabaseModel.get_table_structure db table w = refused (Some db) msg w)
  /\ UserModel.get_all_users w = refused (Some "mysql") msg w
  /\ (forall u p h, UserModel.create_user u p h w = refused None msg w)
  /\ (forall u h, UserModel.drop_user u h w = refused None msg w)
  /\ (forall u h, UserModel.get_user_privileges u h w = refused None msg w)
  /\ (forall u h d p, UserModel.grant_privileges u h d p w = refused None msg w)
  /\ (forall u h d p, UserModel.revoke_privileges u h d p w = refused None msg w).
Proof.
  intros H. repeat apply conj; intros;
    try (apply with_connection_refused; apply H).
  unfold DatabaseModel.drop_database.
  match goal with Hn : _ ∉ _ |- _ => apply py_in_strs_not_elem_of in Hn; rewrite Hn end.
  apply with_connection_refused, H.
Qed.

(** X2. With the connection accepted, [create_database], [drop_database]
    (for a name that is not protected), [drop_table], [create_user] and
    [drop_user] issue exactly one statement on a connection of their own.
    When the server accepts it they commit, close and return [True];
    when it rejects it the driver's error is raised as it is, nothing is
    committed, and the connection is closed all the same. A falsy
    password gives a [CREATE USER] without [IDENTIFIED BY]. *)
Theorem statements_commit_only_on_success (w : world E) :
  srv_connect E None (w_server w) = None ->
  (forall name,
      DatabaseModel.create_database name w
      = statement_outcome None ("CREATE DATABASE `" +:+ py_format E name +:+ "`") w)
  /\ (forall name, name ∉ Config.SYSTEM_DATABASES ->
      DatabaseModel.drop_database name w
      = statement_outcome None ("DROP DATABASE `" +:+ name +:+ "`") w)
  /\ (forall u p h, py_truthy p = true ->
      UserModel.create_user u p h w
      = statement_outcome None
          ("CREATE USER '" +:+ py_format E u +:+ "'@'" +:+ py_format E h +:+
           "' IDENTIFIED BY '" +:+ py_format E p +:+ "'") w)
  /\ (forall u p h, py_truthy p = false ->
      UserModel.create_user u p h w
      = statement_outcome None
          ("CREATE USER '" +:+ py_format E u +:+ "'@'" +:+ py_format E h +:+ "'") w)
  /\ (forall u h,
      UserModel.drop_user u h w
      = statement_outcome None ("DROP USER '" +:+ u +:+ "'@'" +:+ h +:+ "'") w)
  /\ (forall db table,
      srv_connect E (Some db) (w_server w) = None ->
      DatabaseModel.drop_table db table w
      = statement_outcome (Some db) ("DROP TABLE `" +:+ table +:+ "`") w).
Proof.
  intros H. repeat apply conj.
  - intros name. apply (statement_eq None _ w H).
  - intros name Hn. unfold DatabaseModel.drop_database.
    apply py_in_strs_not_elem_of in Hn. rewrite Hn.
    apply (statement_eq None _ w H).
  - intros u p h Hp. unfold UserModel.create_user. rewrite Hp.
    apply (statement_eq None _ w H).
  - intros u p h Hp. unfold UserModel.create_user. rewrite Hp.
    apply (statement_eq None _ w H).
  - intros u h. apply (statement_eq None _ w H).
  - intros db table Hdb. apply (statement_eq (Some db) _ w Hdb).
Qed.

Lemma statement_outcome_commit (database : option string) (sql : string) (w : world E) :
  let r := statement_outcome database sql w in
  (is_ok (fst r) = true ->
     w_trace (snd r)
     = w_trace w ++ [EvConnect database; EvExecute sql; EvCommit; EvClose])
  /\ (is_ok (fst r) = false ->
     w_trace (snd r) = w_trace w ++ [EvConnect database; EvExecute sql; EvClose]).
Proof.
  unfold statement_outcome.
  destruct (srv_execute E sql database (w_server w)) as [[rows|e] srv']; cbn;
    split; intros Hok; try discriminate Hok;
    rewrite <- !app_assoc; reflexivity.
Qed.

End ConnectionFacts.


(** ** Tables, privileges and the user routes *)

Section TableFacts.
Context {E : Env}.

Lemma str_items_strings (ps : list string) : str_items (map PStr ps) = Ok ps.
Proof.
  induction ps as [|p ps IH]; [reflexivity|]. cbn. rewrite IH. reflexivity.
Qed.

Lemma py_join_strings (sep : string) (ps : list string) :
  py_join sep (PList (map PStr ps)) = Ok (String.concat sep ps).
Proof. unfold py_join. cbn. rewrite str_items_strings. reflexivity. Qed.

Lemma column_defs_strings (cs : list (string * string)) :
  DatabaseModel.column_defs (E := E) (map column_value cs) = Ok (map column_def cs).
Proof.
  induction cs as [|c cs IH]; [reflexivity|].
  cbn [map DatabaseModel.column_defs]. rewrite IH. reflexivity.
Qed.

Lemma privilege_eq (sql : string) (w : world E) :
  srv_connect E None (w_server w) = None ->
  DatabaseModel.with_connection None (fun connection =>
    bind (DatabaseModel.cursor_execute connection sql) (fun _ =>
    bind (DatabaseModel.cursor_execute connection "FLUSH PRIVILEGES") (fun _ =>
    bind (log EvCommit) (fun _ => ret true)))) w
  = privilege_outcome sql w.
Proof.
  intros H. unfold privilege_outcome.
  destruct (srv_execute E sql None (w_server w)) as [[rows|e] srv1] eqn:Hsql.
  - destruct (srv_execute E "FLUSH PRIVILEGES" None srv1) as [[rows2|e] srv2] eqn:Hflush;
      apply (with_connection_run _ _ _ _ _ H);
      unfold bind at 1; rewrite cursor_execute_eq; cbn [w_server add_event];
      rewrite Hsql; cbn [fst snd];
      rewrite execute_commit_eq; cbn [w_server set_server add_event];
      rewrite Hflush; reflexivity.
  - apply (with_connection_run _ _ _ _ _ H).
    unfold bind at 1. rewrite cursor_execute_eq. cbn [w_server add_event].
    rewrite Hsql. reflexivity.
Qed.

(** X3. With the connection accepted, granting privileges given as a list
    of keywords issues [GRANT k1, k2, ... ON `db`.* TO 'user'@'host'], then
    [FLUSH PRIVILEGES], then commits; revoking does the same with
    [REVOKE ... FROM]. The flush is issued only after an accepted
    statement and the commit only after an accepted flush; the
    connection is closed in every case. Privileges that cannot be joined
    (a number, or a list with an item that is not a string) raise a
    [TypeError] after the connection is opened: it is closed again and
    no statement is issued. *)
Theorem privileges_are_granted_then_flushed
    (username : string) (host database : value) (w : world E) :
  srv_connect E None (w_server w) = None ->
  (forall keywords : list string,
      UserModel.grant_privileges username host database (PList (map PStr keywords)) w
      = privilege_outcome
          ("GRANT " +:+ String.concat ", " keywords +:+ " ON `" +:+
           py_format E database +:+ "`.* TO '" +:+ username +:+ "'@'" +:+
           py_format E host +:+ "'") w)
  /\ (forall keywords : list string,
      UserModel.revoke_privileges username host database (PList (map PStr keywords)) w
      = privilege_outcome
          ("REVOKE " +:+ String.concat ", " keywords +:+ " ON `" +:+
           py_format E database +:+ "`.* FROM '" +:+ username +:+ "'@'" +:+
           py_format E host +:+ "'") w)
  /\ (forall (privileges : value) (e : exn),
      py_join ", " privileges = Raise e ->
      UserModel.grant_privileges username host database privileges w
      = aborted None e w
      /\ UserModel.revoke_privileges username host database privileges w
         = aborted None e w).
Proof.
  intros H. repeat apply conj.
  - intros keywords. rewrite <- (privilege_eq _ w H).
    unfold UserModel.grant_privileges, DatabaseModel.with_connection.
    rewrite !(bind_ok _ _ _ _ _ (get_connection_ok _ _ H)).
    unfold try_finally, bind at 1, lift at 1. rewrite py_join_strings.
    reflexivity.
  - intros keywords. rewrite <- (privilege_eq _ w H).
    unfold UserModel.revoke_privileges, DatabaseModel.with_connection.
    rewrite !(bind_ok _ _ _ _ _ (get_connection_ok _ _ H)).
    unfold try_finally, bind at 1, lift at 1. rewrite py_join_strings.
    reflexivity.
  - intros privileges e He. split.
    + unfold UserModel.grant_privileges.
      apply (with_connection_run _ _ _ _ _ H).
      unfold bind at 1, lift at 1. rewrite He. reflexivity.
    + unfold UserModel.revoke_privileges.
      apply (with_connection_run _ _ _ _ _ H).
      unfold bind at 1, lift at 1. rewrite He. reflexivity.
Qed.

(** X4. With the connection to the database accepted, creating a table
    from columns given as objects with a [name] and a [type] issues
    [CREATE TABLE `t` (`c1` type1, `c2` type2, ...)], the columns in the
    given order, and commits when the server accepts it. Columns that
    cannot be read (not iterable, or an item without [name] or [type])
    raise the lookup's error after the connection is opened: it is closed
    again and no statement reaches the server. *)
Theorem create_table_builds_one_statement
    (database_name : string) (table_name : value) (w : world E) :
  srv_connect E (Some database_name) (w_server w) = None ->
  (forall cs : list (string * string),
      DatabaseModel.create_table database_name table_name
        (PList (map column_value cs)) w
      = statement_outcome (Some database_name)
          ("CREATE TABLE `" +:+ py_format E table_name +:+ "` (" +:+
           String.concat ", " (map column_def cs) +:+ ")") w)
  /\ (forall (columns : value) (e : exn),
      py_iter columns = Raise e ->
      DatabaseModel.create_table database_name table_name columns w
      = aborted (Some database_name) e w)
  /\ (forall (columns : value) (cols : list value) (e : exn),
      py_iter columns = Ok cols ->
      DatabaseModel.column_defs (E := E) cols = Raise e ->
      DatabaseModel.create_table database_name table_name columns w
      = aborted (Some database_name) e w).
Proof.
  intros H. repeat apply conj.
  - intros cs. rewrite <- (statement_eq _ _ w H).
    unfold DatabaseModel.create_table, DatabaseModel.with_connection.
    rewrite !(bind_ok _ _ _ _ _ (get_connection_ok _ _ H)).
    unfold try_finally, bind at 1, lift at 1. cbn [py_iter].
    unfold bind at 1, lift at 1. rewrite column_defs_strings.
    reflexivity.
  - intros columns e He. unfold DatabaseModel.create_table.
    apply (with_connection_run _ _ _ _ _ H).
    unfold bind at 1, lift at 1. rewrite He. reflexivity.
  - intros columns cols e Hcols He. unfold DatabaseModel.create_table.
    apply (with_connection_run _ _ _ _ _ H).
    unfold bind at 1, lift at 1. rewrite Hcols.
    unfold bind at 1, lift at 1. rewrite He. reflexivity.
Qed.

Lemma py_index_lookup (row : list value) (i : nat) :
  (i < length row)%nat -> py_index row i = Ok (default PNone (row !! i)).
Proof.
  intros Hi. unfold py_index.
  destruct (lookup_lt_is_Some_2 row i Hi) as [v ->]. reflexivity.
Qed.

Lemma describe_column_full (row : list value) :
  (6 <= length row)%nat ->
  DatabaseModel.describe_column row = Ok (column_record row).
Proof.
  intros Hlen. unfold DatabaseModel.describe_column, column_record.
  rewrite !py_index_lookup by lia. reflexivity.
Qed.

Lemma describe_column_short (row : list value) :
  (length row < 6)%nat ->
  DatabaseModel.describe_column row
  = Raise (Exc IndexError "tuple index out of range").
Proof.
  intros Hlen. unfold DatabaseModel.describe_column, py_index.
  do 6 (destruct row as [|? row]; [reflexivity|]). cbn in Hlen. lia.
Qed.

Lemma describe_columns_full (rows : list (list value)) :
  Forall (fun row => (6 <= length row)%nat) rows ->
  DatabaseModel.describe_columns rows = Ok (map column_record rows).
Proof.
  induction 1 as [|row rows Hrow _ IH]; [reflexivity|].
  cbn [DatabaseModel.describe_columns map].
  rewrite (describe_column_full _ Hrow), IH. reflexivity.
Qed.

Lemma describe_columns_short (rows : list (list value)) :
  Exists (fun row => (length row < 6)%nat) rows ->
  DatabaseModel.describe_columns rows
  = Raise (Exc IndexError "tuple index out of range").
Proof.
  induction rows as [|row rows IH]; intros Hex; [inversion Hex|].
  cbn [DatabaseModel.describe_columns].
  destruct (decide (length row < 6)%nat) as [Hshort|Hlong].
  - rewrite (describe_column_short _ Hshort). reflexivity.
  - rewrite describe_column_full by lia.
    rewrite IH; [reflexivity|].
    inversion Hex; subst; [contradiction|assumption].
Qed.

(** X5. When the server describes a table with rows of six columns or
    more, [get_table_structure] returns one record per row, in order, with
    the first six values of the row under [field], [type], [null],
    [key], [default] and [extra]; a row with fewer than six columns makes
    the whole call raise an [IndexError]. The connection is closed in
    both cases. *)
Theorem table_structure_maps_rows
    (database_name table_name : string) (w : world E)
    (rows : list (list value)) (srv' : server E) :
  srv_connect E (Some database_name) (w_server w) = None ->
  srv_execute E ("DESCRIBE `" +:+ table_name +:+ "`") (Some database_name) (w_server w)
    = (Ok rows, srv') ->
  let w' := add_event EvClose
              (set_server srv'
                 (add_event (EvExecute ("DESCRIBE `" +:+ table_name +:+ "`"))
                    (add_event (EvConnect (Some database_name)) w))) in
  (Forall (fun row => (6 <= length row)%nat) rows ->
     DatabaseModel.get_table_structure database_name table_name w
     = (Ok (map column_record rows), w'))
  /\ (Exists (fun row => (length row < 6)%nat) rows ->
     DatabaseModel.get_table_structure database_name table_name w
     = (Raise (Exc IndexError "tuple index out of range"), w')).
Proof.
  intros H Hrows w'.
  assert (DatabaseModel.get_table_structure database_name table_name w
          = (DatabaseModel.describe_columns rows, w')) as Hrun.
  { unfold DatabaseModel.get_table_structure.
    rewrite (query_eq _ _ _ w H). unfold query_outcome. rewrite Hrows.
    reflexivity. }
  split; intros Hshape; rewrite Hrun.
  - rewrite (describe_columns_full _ Hshape). reflexivity.
  - rewrite (describe_columns_short _ Hshape). reflexivity.
Qed.

(** X6. For a request whose body is a JSON object, creating a table
    without a name or without columns (an empty list included), and
    granting or revoking without a database or without privileges (an
    empty list included), is answered with status 400 and leaves the
    world untouched: no model-layer method is entered. *)
Theorem table_and_privilege_requests_are_validated :
  (forall (database_name : string) (d : list (string * value)) (w : world E),
      py_truthy (field d "name") = false \/ py_truthy (field d "columns") = false ->
      database_controller.create_table database_name (Ok (PDict d)) w
      = (Ok (failure 400 "Table name and columns are required"), w))
  /\ (forall (username : string) (d : list (string * value)) (w : world E),
      py_truthy (field d "database") = false
      \/ py_truthy (field d "privileges") = false ->
      user_controller.grant_privileges username (Ok (PDict d)) w
      = (Ok (failure 400 "Database and privileges are required"), w)
      /\ user_controller.revoke_privileges username (Ok (PDict d)) w
         = (Ok (failure 400 "Database and privileges are required"), w)).
Proof.
  repeat apply conj.
  - intros database_name d w H.
    unfold database_controller.create_table, try_except, bind, lift, py_get.
    fold (field d "name") (field d "columns").
    destruct H as [H|H]; rewrite H; [reflexivity|].
    destruct (py_truthy (field d "name")); reflexivity.
  - intros username d w H. split.
    + unfold user_controller.grant_privileges, try_except, bind, lift, py_get.
      fold (field d "database") (field d "privileges").
      destruct H as [H|H]; rewrite H; [reflexivity|].
      destruct (py_truthy (field d "database")); reflexivity.
    + unfold user_controller.revoke_privileges, try_except, bind, lift, py_get.
      fold (field d "database") (field d "privileges").
      destruct H as [H|H]; rewrite H; [reflexivity|].
      destruct (py_truthy (field d "database")); reflexivity.
Qed.

(** X7. For a request to [POST /api/users] whose body is an object with
    a username and a password, and with the connection accepted, the route
    issues [CREATE USER 'u'@'h' IDENTIFIED BY 'p'], with ['localhost'] for
    [h] when the body has no [host]: the clause is always there, since a
    request without a password is rejected beforehand. The answer is the
    success message when the server accepts the statement, and status
    500 with the driver's message when it does not. *)
Theorem create_user_route_always_identifies
    (d : list (string * value)) (w : world E) :
  srv_connect E None (w_server w) = None ->
  py_truthy (field d "username") = true ->
  py_truthy (field d "password") = true ->
  let host := match assoc "host" d with Some h => h | None => PStr "localhost" end in
  user_controller.create_user (Ok (PDict d)) w
  = answer_of
      (fun _ => jsonify
         [("success", PBool true);
          ("message", PStr ("User " +:+ py_format E (field d "username") +:+ "@" +:+
                            py_format E host +:+ " created successfully"))])
      (statement_outcome None
         ("CREATE USER '" +:+ py_format E (field d "username") +:+ "'@'" +:+
          py_format E host +:+ "' IDENTIFIED BY '" +:+
          py_format E (field d "password") +:+ "'")
         (add_event (EvCall "UserModel.create_user") w)).
Proof.
  intros H Hu Hp host.
  unfold user_controller.create_user, try_except.
  unfold bind at 1, lift at 1. unfold bind at 1, lift at 1, py_get.
  unfold bind at 1, lift at 1. unfold bind at 1, lift at 1.
  fold (field d "username") (field d "password"). fold host.
  rewrite Hu, Hp. cbn [negb orb].
  unfold call, bind at 1, bind at 1, log, modify.
  assert (UserModel.create_user (field d "username") (field d "password") host
            (add_event (EvCall "UserModel.create_user") w)
          = statement_outcome None
              ("CREATE USER '" +:+ py_format E (field d "username") +:+ "'@'" +:+
               py_format E host +:+ "' IDENTIFIED BY '" +:+
               py_format E (field d "password") +:+ "'")
              (add_event (EvCall "UserModel.create_user") w)) as Hcreate.
  { unfold UserModel.create_user. rewrite Hp.
    apply (statement_eq None). exact H. }
  rewrite Hcreate.
  destruct (statement_outcome None _ _) as [[b|e] w1]; reflexivity.
Qed.

End TableFacts.


(** ** Restores *)

Section RestoreMore.
Context {E : Env}.

Lemma stats_reading_unreadable (file : option content) :
  stats_reading (E := E) file false = 0.
Proof. destruct file as [[v|s]|]; reflexivity. Qed.

(** X8. Restoring from a file that is not in the backup directory raises
    "Backup file not found" and changes nothing: no database is created
    and no tool is run. A file name that is not a string raises a
    [TypeError] in the same way. Through the route the answer is status
    500 with that message, and only the call is logged. *)
Theorem restore_of_missing_file_does_nothing
    (name : string) (target_database : value) (w : world E) :
  w_fs w !! os_path_join (Config.BACKUP_DIR E) name = None ->
  BackupModel.restore_backup (PStr name) target_database w
    = (Raise (Exc Exception "Backup file not found"), w)
  /\ (forall d : list (string * value),
        field d "filename" = PStr name ->
        name <> EmptyString ->
        backup_controller.restore_backup (Ok (PDict d)) w
        = (Ok (failure 500 "Backup file not found"),
           add_event (EvCall "BackupModel.restore_backup") w)).
Proof.
  intros Hfile.
  assert (forall (t : value) (w0 : world E), w_fs w0 = w_fs w ->
            BackupModel.restore_backup (PStr name) t w0
            = (Raise (Exc Exception "Backup file not found"), w0)) as Hrun.
  { intros t w0 Hfs. unfold BackupModel.restore_backup.
    unfold bind at 1, os_path_exists, gets. rewrite Hfs, Hfile. reflexivity. }
  split; [apply Hrun; reflexivity|].
  intros d Hname Hne.
  unfold backup_controller.restore_backup, try_except.
  unfold bind at 1, lift at 1. unfold bind at 1, lift at 1, py_get.
  unfold bind at 1, lift at 1. fold (field d "filename"). rewrite Hname.
  assert (py_truthy (PStr name) = true) as ->.
  { cbn. destruct name; [contradiction|reflexivity]. }
  cbn [negb].
  pose proof (handler_call_raise "BackupModel.restore_backup"
                (BackupModel.restore_backup (PStr name)
                   match assoc "target_database" d with
                   | Some v => v
                   | None => PNone
                   end)
                (fun _ => ret (jsonify
                   [("success", PBool true);
                    ("message", PStr "Database restored successfully")]))
                w _ _ (Hrun _ (add_event (EvCall "BackupModel.restore_backup") w)
                         eq_refl)) as Hh.
  unfold try_except in Hh. exact Hh.
Qed.

(** X9. Whatever its outcome, a restore leaves every file other than the
    stats file as it was, and the permissions too; a restore that fails
    changes no file at all (the counter is not bumped); and the counter
    never reads less after a restore than before. *)
Theorem restore_only_touches_the_stats_file
    (filename target_database : value) (w w' : world E) (r : result bool) :
  BackupModel.restore_backup filename target_database w = (r, w') ->
  (forall path, path <> Config.RESTORE_STATS_FILE E ->
      w_fs w' !! path = w_fs w !! path)
  /\ same_perms w w'
  /\ (is_ok r = false -> w_fs w' = w_fs w)
  /\ restore_count w <= restore_count w'.
Proof.
  rewrite restore_backup_eq.
  pose proof (keeps_files_restore_load filename target_database w) as Hkeep.
  destruct (restore_load filename target_database w) as [[[]|e] w1];
    cbn in Hkeep; destruct Hkeep as (Hfs & Hr & Hw); intros Hrun.
  - assert (r = Ok true /\ w' = snd (BackupModel.bump_restore_count w1))
      as [-> ->] by (inversion Hrun; auto).
    rewrite bump_restore_count_eq. cbn [snd].
    assert (restore_count w1 = restore_count w) as Hcount
      by (apply restore_count_same_files; repeat split; assumption).
    destruct (w_writable w1 (Config.RESTORE_STATS_FILE E)) eqn:Hwritable.
    + repeat apply conj.
      * intros path Hpath. cbn. rewrite lookup_insert_ne by congruence.
        rewrite Hfs. reflexivity.
      * exact Hr.
      * exact Hw.
      * discriminate.
      * rewrite (restore_count_eq (set_fs _ w1)). cbn.
        rewrite lookup_insert_eq. cbn. rewrite Hr.
        destruct (w_readable w (Config.RESTORE_STATS_FILE E)) eqn:Hreadable.
        -- rewrite Hcount. lia.
        -- rewrite (restore_count_eq w), Hreadable, stats_reading_unreadable. lia.
    + repeat apply conj.
      * intros path _. rewrite Hfs. reflexivity.
      * exact Hr.
      * exact Hw.
      * discriminate.
      * rewrite Hcount. lia.
  - assert (r = Raise e /\ w' = w1) as [-> ->] by (inversion Hrun; auto).
    repeat apply conj.
    + intros path _. rewrite Hfs. reflexivity.
    + exact Hr.
    + exact Hw.
    + intros _. exact Hfs.
    + rewrite (restore_count_same_files w w1) by (repeat split; assumption). lia.
Qed.

Lemma subprocess_run_trace (args : list string) (cmd : list value)
    (env : list (string * string)) (stdin : option string) (w : world E) :
  cmd_args cmd = Ok args ->
  w_trace (snd (subprocess_run cmd env stdin w)) = w_trace w ++ [EvRun args].
Proof.
  intros Hargs. unfold subprocess_run, bind, lift, log, modify, gets.
  rewrite Hargs. cbn.
  destruct (run_process E args env stdin (w_server w)) as [[rc out err|e] srv'];
    reflexivity.
Qed.

Lemma run_from_file_trace (cmd : list value) (args : list string)
    (env : list (string * string)) (filepath : string) (w : world E) (c : content) :
  w_fs w !! filepath = Some c ->
  w_readable w filepath = true ->
  cmd_args cmd = Ok args ->
  w_trace (snd (BackupModel.run_from_file cmd env filepath w))
  = w_trace w ++ [EvRun args].
Proof.
  intros Hfile Hreadable Hargs.
  unfold BackupModel.run_from_file, bind at 1, open_read.
  rewrite Hfile, Hreadable.
  pose proof (subprocess_run_trace args cmd env (Some (content_text E c)) w Hargs)
    as Htrace.
  unfold bind.
  destruct (subprocess_run cmd env (Some (content_text E c)) w)
    as [[[[rc out] err]|e] w2]; cbn in Htrace |- *; [|exact Htrace].
  destruct (rc =? 0); exact Htrace.
Qed.

(** The attempt to create the target database never raises and touches
    no file. *)
Lemma create_attempt_ok (target_database : value) (w : world E) :
  exists w1,
    try_except (bind (DatabaseModel.create_database target_database)
                     (fun _ => ret tt))
               (fun _ => ret tt) w = (Ok tt, w1)
    /\ same_files w w1.
Proof.
  pose proof (keeps_files_try_except _ _
                (keeps_files_bind _ _ (keeps_files_create_database target_database)
                   (fun _ => keeps_files_ret (E := E) tt))
                (fun _ => keeps_files_ret tt) w) as Hkeep.
  unfold try_except in Hkeep |- *.
  destruct (bind (DatabaseModel.create_database target_database)
              (fun _ => ret tt) w) as [[[]|e] w1]; cbn in Hkeep |- *; eauto.
Qed.

(** X10. When the backup file is there and can be read, the last thing a
    restore does towards the outside is to run
    [mysql --host=localhost --user=root <target>], whether or not the
    attempt to create the target database succeeded and however the tool
    ends: the password is not on the command line. *)
Theorem restore_runs_the_load_tool
    (name target : string) (target_database : value) (w : world E) (c : content) :
  w_fs w !! os_path_join (Config.BACKUP_DIR E) name = Some c ->
  w_readable w (os_path_join (Config.BACKUP_DIR E) name) = true ->
  BackupModel.restore_target name target_database = PStr target ->
  last (w_trace (snd (BackupModel.restore_backup (PStr name) target_database w)))
  = Some (EvRun ["mysql"; "--host=localhost"; "--user=root"; target]).
Proof.
  intros Hfile Hreadable Htarget.
  set (filepath := os_path_join (Config.BACKUP_DIR E) name) in *.
  unfold BackupModel.restore_backup. fold filepath. cbv zeta. rewrite Htarget.
  unfold bind at 1, os_path_exists, gets. rewrite Hfile. cbn [negb].
  destruct (create_attempt_ok (PStr target) w) as (w1 & Hattempt & Hfs & Hr & _).
  rewrite (bind_ok _ _ _ _ _ Hattempt).
  pose proof (run_from_file_trace (BackupModel.mysql_cmd (PStr target))
                ["mysql"; "--host=localhost"; "--user=root"; target]
                [("MYSQL_PWD", Config.MYSQL_PASSWORD)] filepath w1 c) as Htrace.
  rewrite Hfs, Hr in Htrace. specialize (Htrace Hfile Hreadable eq_refl).
  unfold try_except_called_process_error, bind at 1.
  destruct (BackupModel.run_from_file _ _ filepath w1)
    as [[[]|[cls msg|rc out err]] w2]; cbn in Htrace.
  - unfold bind. rewrite bump_restore_count_eq. cbn.
    destruct (w_writable w2 (Config.RESTORE_STATS_FILE E)); cbn;
      rewrite Htrace; apply last_snoc.
  - cbn. rewrite Htrace. apply last_snoc.
  - cbn. rewrite Htrace. apply last_snoc.
Qed.

End RestoreMore.


(** ** Backups: the success path and what failures leave behind *)

Section BackupMore.
Context {E : Env}.

Lemma run_into_file_completed (cmd : list value) (args : list string)
    (filepath : string) (w : world E) (rc : Z) (out err : string) (srv' : server E) :
  cmd_args cmd = Ok args ->
  run_process E args [] None (w_server w) = (Completed rc out err, srv') ->
  BackupModel.run_into_file cmd filepath w
  = (if rc =? 0 then Ok tt else Raise (CalledProcessError rc None err),
     set_fs (<[filepath := Text out]> (w_fs w))
       (set_server srv' (add_event (EvRun args) w))).
Proof.
  intros Hargs Hrun.
  unfold BackupModel.run_into_file, bind at 1, subprocess_run, bind at 1, lift.
  rewrite Hargs. unfold bind, log, modify, gets, file_put, raise, ret. cbn.
  rewrite Hrun. cbn. destruct (rc =? 0); reflexivity.
Qed.

Lemma get_metadata_stored (w : world E) (l : list value) :
  stored_entries w = Some l ->
  w_readable w (Config.METADATA_FILE E) = true ->
  BackupModel.get_metadata w = (Ok (PList l), w).
Proof.
  intros Hl Hr. rewrite get_metadata_eq, Hr. unfold stored_entries in Hl.
  destruct (w_fs w !! Config.METADATA_FILE E) as [[[| | | |l0|]|s]|];
    try discriminate Hl; inversion Hl; reflexivity.
Qed.

Lemma backup_database_completed
    (database_name table_name : value) (w : world E) (args : list string)
    (out err : string) (srv' : server E) (l : list value) :
  w_writable w (dump_path database_name table_name w) = true ->
  cmd_args (BackupModel.mysqldump_cmd database_name table_name) = Ok args ->
  run_process E args [] None (w_server w) = (Completed 0 out err, srv') ->
  stored_entries w = Some l ->
  w_readable w (Config.METADATA_FILE E) = true ->
  w_writable w (Config.METADATA_FILE E) = true ->
  let filename := BackupModel.backup_filename (E := E) database_name table_name
                    (strftime_compact (w_clock w (w_ticks w))) in
  let size := Z.of_nat (String.length out) in
  let entry := PDict [ ("filename", PStr filename);
                       ("database", database_name);
                       ("table", if py_truthy table_name then table_name
                                 else PStr "Full Database");
                       ("timestamp", PStr (isoformat (w_clock w (S (w_ticks w)))));
                       ("size", PInt size) ] in
  exists w',
    BackupModel.backup_database database_name table_name w
    = (Ok (PDict [ ("filename", PStr filename); ("size", PInt size);
                   ("path", PStr (dump_path database_name table_name w)) ]), w')
    /\ w_fs w' = <[Config.METADATA_FILE E := Json (PList (entry :: l))]>
                   (<[dump_path database_name table_name w := Text out]> (w_fs w))
    /\ same_perms w w'.
Proof.
  intros Hwritable Hargs Hrun Hl Hmr Hmw filename size entry.
  set (filepath := dump_path database_name table_name w) in *.
  assert (filepath <> Config.METADATA_FILE E) as Hne
    by apply dump_path_not_metadata.
  unfold BackupModel.backup_database, bind at 1, now.
  fold (dump_path database_name table_name w). fold filepath. fold filename.
  unfold try_except_called_process_error, bind at 1, open_write.
  cbn [w_writable set_ticks]. rewrite Hwritable.
  unfold bind at 1.
  rewrite (run_into_file_completed _ args filepath _ 0 out err srv' Hargs)
    by exact Hrun.
  cbn [Z.eqb].
  unfold bind at 1, os_path_getsize. cbn [w_fs set_fs set_server add_event].
  rewrite lookup_insert_eq. cbn [content_text]. fold size.
  unfold bind at 1, BackupModel.add_backup_entry, bind at 1.
  rewrite (get_metadata_stored _ l).
  2:{ rewrite <- Hl. apply stored_entries_ext. cbn.
      rewrite !lookup_insert_ne by exact Hne. reflexivity. }
  2:{ exact Hmr. }
  unfold bind at 1, now. cbn [w_clock w_ticks set_fs set_server add_event set_ticks].
  fold entry. unfold bind at 1, lift at 1, py_insert0.
  unfold bind at 1. rewrite save_metadata_eq.
  cbn [w_writable w_fs set_ticks set_fs set_server add_event]. rewrite Hmw.
  unfold bind, ret. cbn.
  eexists. split; [reflexivity|]. cbn.
  rewrite insert_insert_eq. split; [reflexivity|]. split; reflexivity.
Qed.

(** X11. A backup whose dump tool exits with code 0, on a metadata store
    that holds a sequence and can be read and written, returns the file
    name, the size and the path; the file at the path holds what the tool
    printed, the size is the length of that output, and the store gains
    in front an entry with the file name, the database, the table (or the
    label "Full Database" when no table was given), the time of the
    second clock reading and the same size. Nothing else changes in the
    backup directory. *)
Theorem successful_backup_records_the_dump
    (database_name table_name : value) (w : world E) (args : list string)
    (out err : string) (srv' : server E) (l : list value) :
  w_writable w (dump_path database_name table_name w) = true ->
  cmd_args (BackupModel.mysqldump_cmd database_name table_name) = Ok args ->
  run_process E args [] None (w_server w) = (Completed 0 out err, srv') ->
  stored_entries w = Some l ->
  w_readable w (Config.METADATA_FILE E) = true ->
  w_writable w (Config.METADATA_FILE E) = true ->
  let filename := BackupModel.backup_filename (E := E) database_name table_name
                    (strftime_compact (w_clock w (w_ticks w))) in
  let size := Z.of_nat (String.length out) in
  let entry := PDict [ ("filename", PStr filename);
                       ("database", database_name);
                       ("table", if py_truthy table_name then table_name
                                 else PStr "Full Database");
                       ("timestamp", PStr (isoformat (w_clock w (S (w_ticks w)))));
                       ("size", PInt size) ] in
  exists w',
    BackupModel.backup_database database_name table_name w
    = (Ok (PDict [ ("filename", PStr filename); ("size", PInt size);
                   ("path", PStr (dump_path database_name table_name w)) ]), w')
    /\ w_fs w' = <[Config.METADATA_FILE E := Json (PList (entry :: l))]>
                   (<[dump_path database_name table_name w := Text out]> (w_fs w))
    /\ same_perms w w'.
Proof.
  intros Hwritable Hargs Hrun Hl Hmr Hmw.
  exact (backup_database_completed database_name table_name w args out err srv' l
           Hwritable Hargs Hrun Hl Hmr Hmw).
Qed.


Lemma other_entries_unnamed (filename : string) (l : list value) :
  Forall (fun m => names_file filename m = false) l ->
  other_entries filename l = l.
Proof.
  induction 1 as [|m l Hm _ IH]; [reflexivity|].
  unfold other_entries in *. cbn [List.filter]. rewrite Hm. cbn [negb].
  rewrite IH. reflexivity.
Qed.

(** X12. A backup followed by the delete of the file it returned brings
    the metadata store back to the sequence it held before, and leaves no
    file at the dump's path, provided no earlier entry carries the same
    file name. *)
Theorem backup_then_delete_restores_the_store
    (database_name table_name : value) (w : world E) (args : list string)
    (out err : string) (srv' : server E) (l : list value) :
  w_writable w (dump_path database_name table_name w) = true ->
  cmd_args (BackupModel.mysqldump_cmd database_name table_name) = Ok args ->
  run_process E args [] None (w_server w) = (Completed 0 out err, srv') ->
  stored_entries w = Some l ->
  w_readable w (Config.METADATA_FILE E) = true ->
  w_writable w (Config.METADATA_FILE E) = true ->
  let filename := BackupModel.backup_filename (E := E) database_name table_name
                    (strftime_compact (w_clock w (w_ticks w))) in
  Forall has_filename l ->
  Forall (fun m => names_file filename m = false) l ->
  exists r w' w'',
    BackupModel.backup_database database_name table_name w = (Ok r, w')
    /\ filename_of r = Ok (PStr filename)
    /\ BackupModel.delete_backup filename w' = (Ok true, w'')
    /\ stored_entries w'' = Some l
    /\ w_fs w'' !! dump_path database_name table_name w = None.
Proof.
  intros Hwritable Hargs Hrun Hl Hmr Hmw filename Hwf Hfresh.
  destruct (backup_database_completed database_name table_name w args out err srv' l
              Hwritable Hargs Hrun Hl Hmr Hmw) as (w' & Hbackup & Hfs & Hr & Hw).
  fold filename in Hbackup, Hfs.
  match type of Hfs with
  | _ = <[_ := Json (PList (?e :: l))]> _ => set (entry := e) in *
  end.
  destruct (delete_backup_removes_entries filename w' (entry :: l))
    as (w'' & Hdelete & Hstore & Hgone).
  - apply dump_path_not_metadata.
  - unfold stored_entries. rewrite Hfs, lookup_insert_eq. reflexivity.
  - constructor; [|exact Hwf]. eexists. reflexivity.
  - rewrite Hr. exact Hmr.
  - rewrite Hw. exact Hmw.
  - eexists. exists w', w''. split; [exact Hbackup|]. split; [reflexivity|].
    split; [exact Hdelete|]. split; [|exact Hgone].
    rewrite Hstore. f_equal. unfold other_entries. cbn [List.filter].
    assert (names_file filename entry = true) as ->.
    { unfold names_file, filename_of, entry. cbn. apply String.eqb_refl. }
    cbn [negb]. apply (other_entries_unnamed filename l Hfresh).
Qed.

Lemma grows_same (w w1 : world E) : w_fs w1 = w_fs w -> grows w w1.
Proof. intros Hfs p. rewrite Hfs. auto. Qed.

Lemma grows_put (w w1 : world E) (path : string) (c : content) :
  grows w w1 -> grows w (set_fs (<[path := c]> (w_fs w1)) w1).
Proof.
  intros H p Hp. cbn. destruct (decide (path = p)) as [->|Hne].
  - rewrite lookup_insert_eq. eauto.
  - rewrite lookup_insert_ne by exact Hne. apply H, Hp.
Qed.

Lemma run_into_file_grows (cmd : list value) (filepath : string) (w : world E) :
  grows w (snd (BackupModel.run_into_file cmd filepath w)).
Proof.
  unfold BackupModel.run_into_file, bind.
  pose proof (subprocess_run_keeps_files cmd [] None w) as (Hfs & _ & _).
  destruct (subprocess_run cmd [] None w) as [[[[rc out] err]|e] w1];
    cbn in Hfs |- *.
  - unfold file_put, modify. cbn.
    destruct (rc =? 0); cbn; apply grows_put, grows_same, Hfs.
  - apply grows_same, Hfs.
Qed.

Lemma run_into_file_other (cmd : list value) (filepath : string) (w : world E)
    (path : string) :
  path <> filepath ->
  w_fs (snd (BackupModel.run_into_file cmd filepath w)) !! path = w_fs w !! path.
Proof.
  intros Hne. unfold BackupModel.run_into_file, bind.
  pose proof (subprocess_run_keeps_files cmd [] None w) as (Hfs & _ & _).
  destruct (subprocess_run cmd [] None w) as [[[[rc out] err]|e0] w2];
    cbn in Hfs |- *; [|rewrite Hfs; reflexivity].
  unfold file_put, modify. cbn.
  destruct (rc =? 0); cbn; rewrite lookup_insert_ne by congruence;
    rewrite Hfs; reflexivity.
Qed.

(** [add_backup_entry] either writes the store with the new entry in
    front, or raises an ordinary exception and changes no file. *)
Lemma add_backup_entry_cases (database table : value) (filename : string)
    (size : Z) (w w' : world E) (r : result value) :
  BackupModel.add_backup_entry database table filename size w = (r, w') ->
  (exists entry l,
      r = Ok entry
      /\ w_fs w' = <[Config.METADATA_FILE E := Json (PList (entry :: l))]> (w_fs w))
  \/ (exists cls msg, r = Raise (Exc cls msg) /\ w_fs w' = w_fs w).
Proof.
  unfold BackupModel.add_backup_entry, bind at 1. rewrite get_metadata_eq.
  destruct (match w_fs w !! Config.METADATA_FILE E with
            | Some c => if w_readable w (Config.METADATA_FILE E) then json_load c
                        else Raise (Exc OSError "Permission denied")
            | None => Ok (PList [])
            end) as [m|e] eqn:Hm.
  - unfold bind at 1, now. unfold bind at 1, lift at 1.
    destruct m as [| | | |l|]; cbn [py_insert0];
      try solve [intros H; inversion H; subst; right; eauto].
    unfold bind at 1. rewrite save_metadata_eq. cbn [w_writable set_ticks].
    destruct (w_writable w (Config.METADATA_FILE E)); cbn.
    + intros H. inversion H; subst. left. eauto.
    + intros H. inversion H; subst. right. eauto.
  - intros H. assert (r = Raise e /\ w' = w) as [-> ->] by (inversion H; auto).
    right.
    destruct (w_fs w !! Config.METADATA_FILE E) as [[v|s]|];
      [destruct (w_readable w _)| destruct (w_readable w _) |];
      cbn in Hm; inversion Hm; eauto.
Qed.

(** X13. Only an error exit of the dump tool triggers the cleanup. When
    the dump file could be opened and the backup then fails for any other
    reason (the tool cannot be started, an argument is not a string, the
    metadata cannot be read or written), a file is left at the dump's
    path, with no metadata entry for it. *)
Theorem failed_backup_without_tool_error_leaves_the_file
    (database_name table_name : value) (w w' : world E) (e : exn) :
  w_writable w (dump_path database_name table_name w) = true ->
  BackupModel.backup_database database_name table_name w = (Raise e, w') ->
  (forall err, e <> Exc Exception ("Backup failed: " +:+ err)) ->
  is_Some (w_fs w' !! dump_path database_name table_name w)
  /\ w_fs w' !! Config.METADATA_FILE E = w_fs w !! Config.METADATA_FILE E.
Proof.
  intros Hwritable Hrun Herr.
  set (filepath := dump_path database_name table_name w) in *.
  assert (filepath <> Config.METADATA_FILE E) as Hne
    by apply dump_path_not_metadata.
  unfold BackupModel.backup_database, bind at 1, now in Hrun.
  fold (dump_path database_name table_name w) in Hrun. fold filepath in Hrun.
  cbv zeta in Hrun.
  set (filename := BackupModel.backup_filename database_name table_name _) in Hrun.
  unfold try_except_called_process_error, bind at 1, open_write in Hrun.
  cbn [w_writable set_ticks] in Hrun. rewrite Hwritable in Hrun.
  set (w1 := set_fs _ (set_ticks _ w)) in Hrun.
  assert (is_Some (w_fs w1 !! filepath)) as Hthere
    by (unfold w1; cbn; rewrite lookup_insert_eq; eauto).
  assert (w_fs w1 !! Config.METADATA_FILE E = w_fs w !! Config.METADATA_FILE E)
    as Hmeta1 by (unfold w1; cbn; apply lookup_insert_ne; exact Hne).
  unfold bind at 1 in Hrun.
  pose proof (run_into_file_grows
                (BackupModel.mysqldump_cmd database_name table_name) filepath w1)
    as Hgrow2.
  pose proof (run_into_file_other
                (BackupModel.mysqldump_cmd database_name table_name) filepath w1
                (Config.METADATA_FILE E) ltac:(congruence)) as Hmeta2.
  destruct (BackupModel.run_into_file _ filepath w1)
    as [[[]|[cls msg|rc out err]] w2] eqn:Hdump; cbn in Hgrow2, Hmeta2.
  - unfold bind at 1, os_path_getsize in Hrun.
    destruct (Hgrow2 filepath Hthere) as [c Hc]. rewrite Hc in Hrun.
    unfold bind at 1 in Hrun.
    destruct (BackupModel.add_backup_entry database_name table_name filename
                (Z.of_nat (String.length (content_text E c))) w2)
      as [r3 w3] eqn:Hadd.
    apply add_backup_entry_cases in Hadd
      as [(entry & l & -> & Hfs3)|(cls & msg & -> & Hfs3)].
    + discriminate Hrun.
    + assert (w' = w3) as -> by (inversion Hrun; reflexivity).
      rewrite Hfs3. split; [apply Hgrow2, Hthere|].
      rewrite Hmeta2. apply lookup_insert_ne, Hne.
  - assert (w' = w2) as -> by (inversion Hrun; reflexivity).
    split; [apply Hgrow2, Hthere|].
    rewrite Hmeta2. apply lookup_insert_ne, Hne.
  - exfalso. destruct (Hgrow2 filepath Hthere) as [c Hc]. revert Hrun.
    unfold bind at 1, os_path_exists, gets. cbn [fst snd]. rewrite Hc.
    unfold bind at 1, os_remove. rewrite Hc. cbn.
    intros H. eapply Herr. inversion H. reflexivity.
Qed.

(** X14. When the dump file cannot be opened for writing, the backup
    raises the [OSError] of [open]: the tool is not run, nothing is
    logged, and no file and no metadata change; only the clock was
    read. *)
Theorem backup_to_unwritable_path_runs_nothing
    (database_name table_name : value) (w : world E) :
  w_writable w (dump_path database_name table_name w) = false ->
  exists msg,
    BackupModel.backup_database database_name table_name w
    = (Raise (Exc OSError msg), set_ticks (S (w_ticks w)) w).
Proof.
  intros Hwritable.
  unfold BackupModel.backup_database, bind at 1, now.
  fold (dump_path database_name table_name w).
  unfold try_except_called_process_error, bind at 1, open_write.
  cbn [w_writable set_ticks]. rewrite Hwritable. eexists. reflexivity.
Qed.

End BackupMore.


(** ** File names, the stores, the statistics *)

Section Misc.
Context {E : Env}.

Lemma before_first_underscore_cons (a : ascii) (s : string) :
  before_first_underscore (String a s)
  = if Ascii.eqb a underscore then EmptyString
    else String a (before_first_underscore s).
Proof.
  unfold before_first_underscore. cbn [split_char].
  destruct (Ascii.eqb a underscore); [reflexivity|].
  destruct (split_char_head underscore s) as (w & ws & _ & -> & _). reflexivity.
Qed.

Lemma before_first_underscore_app (a r : string) :
  before_first_underscore (a +:+ String underscore r) = before_first_underscore a.
Proof.
  induction a as [|c a IH].
  - change (EmptyString +:+ String underscore r) with (String underscore r).
    rewrite before_first_underscore_cons, Ascii.eqb_refl. reflexivity.
  - change (String c a +:+ String underscore r)
      with (String c (a +:+ String underscore r)).
    rewrite !before_first_underscore_cons, IH. reflexivity.
Qed.

Lemma before_first_underscore_id (s : string) :
  (forall c, In c (String.list_ascii_of_string s) -> c <> underscore) ->
  before_first_underscore s = s.
Proof.
  induction s as [|a s IH]; intros H; [reflexivity|].
  rewrite before_first_underscore_cons.
  destruct (Ascii.eqb a underscore) eqn:Ha.
  - apply Ascii.eqb_eq in Ha. exfalso. apply (H a); [left; reflexivity|exact Ha].
  - rewrite IH; [reflexivity|]. intros c Hc. apply H. right. exact Hc.
Qed.

(** X15. The target that a restore derives from the name of a backup of
    database [d] is the part of [d] before its first underscore: it is
    [d] itself exactly when the name of the database has no underscore,
    and a strict prefix of it otherwise (a backup of [my_db] is restored
    into [my] unless a target is given). *)
Theorem derived_target_of_a_backup_name :
  (forall (d : string) (table_name : value) (timestamp : string),
      BackupModel.restore_target
        (BackupModel.backup_filename (E := E) (PStr d) table_name timestamp) PNone
      = PStr (before_first_underscore d))
  /\ (forall d : string,
        (forall c, In c (String.list_ascii_of_string d) -> c <> underscore) ->
        before_first_underscore d = d)
  /\ (forall d : string,
        In underscore (String.list_ascii_of_string d) ->
        before_first_underscore d <> d).
Proof.
  repeat apply conj.
  - intros d table_name timestamp.
    unfold BackupModel.restore_target, BackupModel.backup_filename. cbn [py_truthy].
    destruct (py_truthy table_name); cbn [py_format];
      match goal with
      | |- context [d +:+ "_" +:+ ?rest] =>
          change (d +:+ "_" +:+ rest) with (d +:+ String underscore rest)
      end;
      rewrite (before_first_underscore_app d); reflexivity.
  - apply before_first_underscore_id.
  - intros d Hin Heq.
    destruct (split_char_head underscore d) as (w & ws & rest & Hsplit & _ & _ & Hw).
    assert (before_first_underscore d = w) as Hbefore
      by (unfold before_first_underscore; rewrite Hsplit; reflexivity).
    rewrite Heq in Hbefore. subst w. exact (Hw underscore Hin eq_refl).
Qed.


Lemma set_add_bound (k : hkey) (seen : list hkey) :
  NoDup seen ->
  NoDup (set_add k seen) /\ (length (set_add k seen) <= S (length seen))%nat.
Proof.
  intros Hnd. unfold set_add. destruct (bool_decide (k ∈ seen)) eqn:Hk.
  - split; [exact Hnd|lia].
  - apply bool_decide_eq_false in Hk. split.
    + apply NoDup_app. split; [exact Hnd|]. split.
      * intros x Hx Hx'. apply list_elem_of_singleton in Hx'. subst x. contradiction.
      * apply NoDup_singleton.
    + rewrite length_app. cbn. lia.
Qed.

Lemma databases_of_bound (items : list value) :
  forall (seen dbs : list hkey),
    BackupModel.databases_of items seen = Ok dbs ->
    NoDup seen ->
    NoDup dbs /\ (length dbs <= length seen + length items)%nat.
Proof.
  induction items as [|entry items IH]; intros seen dbs Hrun Hnd.
  - cbn in Hrun. inversion Hrun; subst. split; [exact Hnd|lia].
  - cbn [BackupModel.databases_of] in Hrun.
    destruct (py_getitem entry "database") as [db|e]; [|discriminate].
    destruct (py_hash_key db) as [k|e]; [|discriminate].
    destruct (set_add_bound k seen Hnd) as [Hnd' Hlen].
    destruct (IH _ _ Hrun Hnd') as [Hnd'' Hlen'].
    split; [exact Hnd''|]. cbn [length]. lia.
Qed.

Lemma py_len_iter (x : value) (items : list value) :
  py_iter x = Ok items -> py_len x = Ok (Z.of_nat (length items)).
Proof.
  destruct x; cbn; intros H; inversion H; subst; try reflexivity.
  - rewrite length_map. f_equal. f_equal. clear H.
    induction s as [|a s IH]; [reflexivity|]. cbn. f_equal. exact IH.
  - rewrite length_map. reflexivity.
Qed.

(** X17. Statistics that are returned have the four fields in order, the
    number of distinct databases is at most the number of backups (and
    not negative), and [total_restored] is the counter as it reads
    back. *)
Theorem backup_stats_are_consistent (w w' : world E) (stats : value) :
  BackupModel.get_backup_stats w = (Ok stats, w') ->
  exists (total_backups databases_backed_up : Z) (total_tables : value),
    stats = PDict [ ("total_backups", PInt total_backups);
                    ("databases_backed_up", PInt databases_backed_up);
                    ("total_restored", PInt (restore_count w));
                    ("total_tables", total_tables) ]
    /\ 0 <= databases_backed_up <= total_backups.
Proof.
  intros Hrun. unfold BackupModel.get_backup_stats in Hrun.
  apply bind_ok_inv in Hrun as (metadata & w1 & Hmeta & Hrun).
  assert (w1 = w) as ->
    by (rewrite get_metadata_eq in Hmeta; inversion Hmeta; reflexivity).
  apply bind_ok_inv in Hrun as (items & w2 & Hitems & Hrun).
  unfold lift in Hitems.
  assert (py_iter metadata = Ok items /\ w2 = w) as [Hiter ->]
    by (inversion Hitems; auto).
  apply bind_ok_inv in Hrun as (dbs & w3 & Hdbs & Hrun).
  unfold lift in Hdbs.
  assert (BackupModel.databases_of items [] = Ok dbs /\ w3 = w) as [Hof ->]
    by (inversion Hdbs; auto).
  apply bind_ok_inv in Hrun as (restored & w4 & Hload & Hrun).
  rewrite load_restore_count_eq in Hload.
  assert (restored = restore_count w /\ w4 = w) as [-> ->]
    by (rewrite restore_count_eq; inversion Hload; auto).
  apply bind_ok_inv in Hrun as (tables & w5 & Hcount & Hrun).
  apply bind_ok_inv in Hrun as (n & w6 & Hlen & Hrun).
  unfold lift in Hlen. rewrite (py_len_iter _ _ Hiter) in Hlen.
  assert (n = Z.of_nat (length items)) as -> by (inversion Hlen; reflexivity).
  unfold ret in Hrun.
  exists (Z.of_nat (length items)), (Z.of_nat (length dbs)), tables.
  split; [inversion Hrun; reflexivity|].
  destruct (databases_of_bound items [] dbs Hof (NoDup_nil_2)) as [_ Hbound].
  cbn in Hbound. lia.
Qed.

(** X18. With the connection to [information_schema] accepted, the
    count of tables for the statistics closes that connection only when
    the query succeeds: it then returns the first value of the first row
    (0 when there is no row). When the query fails it returns 0, and the
    log shows the connection and the statement but no close. *)
Theorem table_count_closes_only_on_success (w : world E) :
  srv_connect E (Some "information_schema") (w_server w) = None ->
  let w0 := add_event (EvExecute BackupModel.table_count_query)
              (add_event (EvConnect (Some "information_schema")) w) in
  (forall (rows : list (list value)) (srv' : server E),
      srv_execute E BackupModel.table_count_query (Some "information_schema")
        (w_server w) = (Ok rows, srv') ->
      BackupModel.count_tables w
      = (Ok (match rows with (v :: _) :: _ => v | _ => PInt 0 end),
         add_event EvClose (set_server srv' w0)))
  /\ (forall (e : exn) (srv' : server E),
      srv_execute E BackupModel.table_count_query (Some "information_schema")
        (w_server w) = (Raise e, srv') ->
      BackupModel.count_tables w = (Ok (PInt 0), set_server srv' w0)).
Proof.
  intros H w0. split.
  - intros rows srv' Hrows. unfold BackupModel.count_tables, try_except.
    rewrite (bind_ok _ _ _ _ _ (get_connection_ok _ _ H)).
    unfold bind at 1. rewrite cursor_execute_eq. cbn [w_server add_event].
    rewrite Hrows. cbn [fst snd].
    destruct rows as [|[|v row] rows]; reflexivity.
  - intros e srv' Hrows. unfold BackupModel.count_tables, try_except.
    rewrite (bind_ok _ _ _ _ _ (get_connection_ok _ _ H)).
    unfold bind at 1. rewrite cursor_execute_eq. cbn [w_server add_event].
    rewrite Hrows. reflexivity.
Qed.





End Misc.


(** ** The properties on concrete inputs *)

Section Instances.
Import Demo.

Lemma drop_system_database_rejected_witness :
  "mysql" ∈ Config.SYSTEM_DATABASES
  /\ DatabaseModel.drop_database "mysql" (world_of healthy two_backups)
     = (Raise (Exc Exception "Cannot drop system database"),
        world_of healthy two_backups).
Proof.
  assert ("mysql" ∈ Config.SYSTEM_DATABASES) as Hin
    by (apply (bool_decide_unpack _); vm_compute; exact I).
  split; [exact Hin|].
  exact (proj1 (drop_system_database_rejected (E := env) "mysql"
                  (world_of healthy two_backups) Hin)).
Defined.

Lemma get_all_databases_excludes_system_witness :
  fst (DatabaseModel.get_all_databases (world_of healthy two_backups))
  = Ok [PStr "salesdb"; PStr "hr"].
Proof.
  destruct (get_all_databases_excludes_system (E := env)
              (world_of healthy two_backups)
              ["information_schema"; "mysql"; "salesdb"; "sys"; "hr"] healthy
              eq_refl eq_refl) as (listed & Hrun & Hlisted & _).
  rewrite Hrun, Hlisted. vm_compute. reflexivity.
Defined.

Lemma backup_entries_newest_first_witness :
  exists entries,
    length entries = 2%nat
    /\ stored_entries
         (snd (backup_all [(PStr "salesdb", PNone); (PStr "hr", PStr "staff")]
                 (world_of healthy two_backups)))
       = Some (rev entries ++ [ entry "salesdb_20231231_235959.sql" "salesdb";
                                entry "hr_20231230_080000.sql" "hr" ]).
Proof.
  destruct (backup_all [(PStr "salesdb", PNone); (PStr "hr", PStr "staff")]
              (world_of healthy two_backups)) as [[results|e] w'] eqn:Hrun;
    [|vm_compute in Hrun; discriminate Hrun].
  destruct (proj2 (proj2 (backup_entries_newest_first (E := env)))
              _ _ _ _ _ Hrun eq_refl) as (entries & Hlen & Hstore & _).
  exists entries. split; [exact Hlen|exact Hstore].
Defined.

Lemma delete_backup_of_metadata_file_clears_store_witness :
  exists w',
    BackupModel.delete_backup "backup_metadata.json" (world_of healthy two_backups)
    = (Ok true, w')
    /\ stored_entries (world_of healthy two_backups)
       = Some [ entry "salesdb_20231231_235959.sql" "salesdb";
                entry "hr_20231230_080000.sql" "hr" ]
    /\ stored_entries w' = Some [].
Proof.
  destruct (delete_backup_of_metadata_file_clears_store (E := env)
              (world_of healthy two_backups)
              (entry "salesdb_20231231_235959.sql" "salesdb")
              [entry "hr_20231230_080000.sql" "hr"] eq_refl eq_refl)
    as (w' & Hdel & Hbefore & Hafter & _).
  exists w'. auto.
Defined.

Lemma restore_counter_behaviour_witness :
  restore_count
    (snd (restore_all [ (PStr "hr_20231230_080000.sql", PNone);
                        (PStr "salesdb_20231231_235959.sql", PStr "sales_copy") ]
            (world_of healthy two_backups)))
  = 2.
Proof.
  destruct (restore_all [ (PStr "hr_20231230_080000.sql", PNone);
                          (PStr "salesdb_20231231_235959.sql", PStr "sales_copy") ]
              (world_of healthy two_backups)) as [[[]|e] w'] eqn:Hrun;
    [|vm_compute in Hrun; discriminate Hrun].
  destruct (restore_counter_behaviour (E := env)) as (_ & _ & _ & _ & _ & _ & _ & Hall & _).
  destruct (Hall _ _ _ Hrun eq_refl eq_refl) as [_ Hcount].
  exact (Hcount eq_refl).
Defined.

Lemma failed_dump_leaves_no_file_witness :
  exists w',
    BackupModel.backup_database (PStr "salesdb") PNone
      (world_of failing_tools two_backups)
    = (Raise (Exc Exception "Backup failed: mysqldump: Got error: 1049"), w')
    /\ w_fs w' = w_fs (world_of failing_tools two_backups).
Proof.
  destruct (failed_dump_leaves_no_file (E := env) (PStr "salesdb") PNone
              (world_of failing_tools two_backups)
              ["mysqldump"; "--host=localhost"; "--user=root"; "--password=kelma";
               "salesdb"]
              2 "-- MySQL" "mysqldump: Got error: 1049" failing_tools
              eq_refl eq_refl eq_refl ltac:(discriminate))
    as (w' & Hrun & _ & _ & _ & _ & Hsame).
  exists w'. split; [exact Hrun|]. apply Hsame. vm_compute. reflexivity.
Defined.

(** C6, as stated, fails when a file already exists at the computed
    path: a backup of [salesdb] made earlier in the same second is deleted
    by the failed attempt, while its metadata entry stays. *)
Lemma failed_dump_deletes_earlier_backup :
  exists w',
    BackupModel.backup_database (PStr "salesdb") PNone
      (world_of failing_tools one_backup_at_noon)
    = (Raise (Exc Exception "Backup failed: mysqldump: Got error: 1049"), w')
    /\ w_fs (world_of failing_tools one_backup_at_noon)
         !! "/srv/app/backups/salesdb_20240101_120000.sql"
       = Some (Text "-- MySQL dump")
    /\ w_fs w' !! "/srv/app/backups/salesdb_20240101_120000.sql" = None
    /\ w_fs w' <> w_fs (world_of failing_tools one_backup_at_noon)
    /\ stored_entries w' = Some [entry "salesdb_20240101_120000.sql" "salesdb"].
Proof.
  eexists. split; [vm_compute; reflexivity|].
  split; [vm_compute; reflexivity|].
  split; [vm_compute; reflexivity|].
  split; [|vm_compute; reflexivity].
  intros Heq.
  apply (f_equal (fun fs => fs !! "/srv/app/backups/salesdb_20240101_120000.sql"))
    in Heq.
  vm_compute in Heq. discriminate Heq.
Defined.


Lemma missing_field_is_rejected_with_400_witness :
  database_controller.create_database (Ok (PDict [("name", PStr "")]))
    (world_of healthy two_backups)
  = (Ok (failure 400 "Database name is required"), world_of healthy two_backups)
  /\ user_controller.create_user (Ok (PDict [("username", PStr "ann")]))
       (world_of healthy two_backups)
     = (Ok (failure 400 "Username and password are required"),
        world_of healthy two_backups).
Proof.
  destruct (missing_field_is_rejected_with_400 (E := env))
    as (Hdb & _ & _ & Huser).
  split.
  - apply Hdb. reflexivity.
  - apply Huser. right. reflexivity.
Defined.

(** C8, as stated, fails for a body that is not a JSON object: with the
    body [null] there is no [name] field, yet the answer is 500. *)
Lemma null_body_is_rejected_with_500 :
  database_controller.create_database (Ok PNone) (world_of healthy two_backups)
  = (Ok (failure 500 "'NoneType' object has no attribute 'get'"),
     world_of healthy two_backups)
  /\ status (failure 500 "'NoneType' object has no attribute 'get'") <> 400.
Proof.
  split; [vm_compute; reflexivity|]. cbn. discriminate.
Defined.

Lemma stats_total_tables_falls_back_to_zero_witness :
  fst (backup_controller.get_stats (world_of down two_backups))
  = Ok (jsonify [ ("success", PBool true);
                  ("stats", PDict [ ("total_backups", PInt 2);
                                    ("databases_backed_up", PInt 2);
                                    ("total_restored", PInt 0);
                                    ("total_tables", PInt 0) ]) ]).
Proof.
  assert (table_count_fails (world_of down two_backups)) as Hfails.
  { left. eexists. vm_compute. reflexivity. }
  exact (proj2 (stats_total_tables_falls_back_to_zero (E := env)
                  (world_of down two_backups)
                  [ entry "salesdb_20231231_235959.sql" "salesdb";
                    entry "hr_20231230_080000.sql" "hr" ]
                  [KStr "salesdb"; KStr "hr"] eq_refl eq_refl Hfails)).
Defined.

Lemma malformed_metadata_fails_with_500_witness :
  is_failure_500 (fst (backup_controller.get_metadata
                         (world_of healthy damaged_metadata)))
  /\ is_failure_500 (fst (backup_controller.delete_backup "hr_20231230_080000.sql"
                            (world_of healthy damaged_metadata))).
Proof.
  destruct (malformed_metadata_fails_with_500 (E := env)
              (world_of healthy damaged_metadata) "[{" eq_refl)
    as (Hlist & _ & _ & Hdelete).
  split; [exact Hlist|]. apply Hdelete. vm_compute. discriminate.
Defined.

(** C10, as stated, fails for the delete of the metadata file's own
    name: the damaged document is removed first, the store then reads as
    empty, and the route answers with success. *)
Lemma malformed_metadata_delete_succeeds :
  w_fs (world_of healthy damaged_metadata) !! Config.METADATA_FILE env
  = Some (Text "[{")
  /\ fst (backup_controller.delete_backup "backup_metadata.json"
            (world_of healthy damaged_metadata))
     = Ok (jsonify [("success", PBool true);
                    ("message", PStr "Backup deleted successfully")])
  /\ ~ is_failure_500 (fst (backup_controller.delete_backup "backup_metadata.json"
                              (world_of healthy damaged_metadata))).
Proof.
  split; [vm_compute; reflexivity|].
  assert (fst (backup_controller.delete_backup "backup_metadata.json"
                 (world_of healthy damaged_metadata))
          = Ok (jsonify [("success", PBool true);
                         ("message", PStr "Backup deleted successfully")])) as Hrun
    by (vm_compute; reflexivity).
  split; [exact Hrun|].
  intros [message Hfail]. rewrite Hrun in Hfail. discriminate Hfail.
Defined.

End Instances.


(** ** The further properties on concrete inputs *)

Section MoreInstances.
Import Demo.

Lemma refused_connection_is_wrapped_witness :
  DatabaseModel.get_tables "salesdb" (Script.world_of Script.refusing [])
  = refused (Some "salesdb") "2003 (HY000): Can't connect to MySQL server"
      (Script.world_of Script.refusing []).
Proof.
  destruct (refused_connection_is_wrapped (E := Script.env)
              (Script.world_of Script.refusing [])
              "2003 (HY000): Can't connect to MySQL server"
              (fun _ => eq_refl)) as (_ & _ & _ & Htables & _).
  apply Htables.
Defined.

Lemma statements_commit_only_on_success_witness :
  DatabaseModel.drop_database "salesdb" (Script.world_of (Script.accepting []) [])
  = (Ok true,
     World (E := Script.env) (Script.accepting []) ∅ (fun _ => true) (fun _ => true)
       (fun _ => noon) 0%nat
       [EvConnect None; EvExecute "DROP DATABASE `salesdb`"; EvCommit; EvClose]).
Proof.
  assert ("salesdb" ∉ Config.SYSTEM_DATABASES) as Hname
    by (apply (bool_decide_unpack _); vm_compute; exact I).
  destruct (statements_commit_only_on_success (E := Script.env)
              (Script.world_of (Script.accepting []) []) eq_refl)
    as (_ & Hdrop & _).
  rewrite (Hdrop "salesdb" Hname). reflexivity.
Defined.

Lemma privileges_are_granted_then_flushed_witness :
  UserModel.grant_privileges "ann" (PStr "localhost") (PStr "salesdb")
    (PList [PStr "SELECT"; PStr "INSERT"]) (Script.world_of (Script.accepting []) [])
  = privilege_outcome "GRANT SELECT, INSERT ON `salesdb`.* TO 'ann'@'localhost'"
      (Script.world_of (Script.accepting []) []).
Proof.
  exact (proj1 (privileges_are_granted_then_flushed (E := Script.env)
                  "ann" (PStr "localhost") (PStr "salesdb")
                  (Script.world_of (Script.accepting []) []) eq_refl)
           ["SELECT"; "INSERT"]).
Defined.

Lemma create_table_builds_one_statement_witness :
  DatabaseModel.create_table "salesdb" (PStr "orders")
    (PList [ PDict [("name", PStr "id"); ("type", PStr "INT")];
             PDict [("name", PStr "note"); ("type", PStr "TEXT")] ])
    (Script.world_of (Script.accepting []) [])
  = statement_outcome (Some "salesdb") "CREATE TABLE `orders` (`id` INT, `note` TEXT)"
      (Script.world_of (Script.accepting []) []).
Proof.
  exact (proj1 (create_table_builds_one_statement (E := Script.env)
                  "salesdb" (PStr "orders")
                  (Script.world_of (Script.accepting []) []) eq_refl)
           [("id", "INT"); ("note", "TEXT")]).
Defined.

Lemma table_structure_maps_rows_witness :
  fst (DatabaseModel.get_table_structure "salesdb" "orders"
         (Script.world_of
            (Script.accepting
               [[PStr "id"; PStr "int"; PStr "NO"; PStr "PRI"; PNone;
                 PStr "auto_increment"]]) []))
  = Ok [PDict [ ("field", PStr "id"); ("type", PStr "int"); ("null", PStr "NO");
                ("key", PStr "PRI"); ("default", PNone);
                ("extra", PStr "auto_increment") ]].
Proof.
  destruct (table_structure_maps_rows (E := Script.env) "salesdb" "orders"
              (Script.world_of
                 (Script.accepting
                    [[PStr "id"; PStr "int"; PStr "NO"; PStr "PRI"; PNone;
                      PStr "auto_increment"]]) [])
              [[PStr "id"; PStr "int"; PStr "NO"; PStr "PRI"; PNone;
                PStr "auto_increment"]]
              (Script.accepting
                 [[PStr "id"; PStr "int"; PStr "NO"; PStr "PRI"; PNone;
                   PStr "auto_increment"]])
              eq_refl eq_refl) as [Hfull _].
  rewrite Hfull; [reflexivity|].
  repeat constructor.
Defined.

Lemma table_and_privilege_requests_are_validated_witness :
  database_controller.create_table "salesdb"
    (Ok (PDict [("name", PStr "orders"); ("columns", PList [])]))
    (world_of healthy two_backups)
  = (Ok (failure 400 "Table name and columns are required"),
     world_of healthy two_backups).
Proof.
  destruct (table_and_privilege_requests_are_validated (E := env)) as [Htable _].
  apply Htable. right. reflexivity.
Defined.

Lemma create_user_route_always_identifies_witness :
  w_trace (snd (user_controller.create_user
                  (Ok (PDict [("username", PStr "ann"); ("password", PStr "s3cret")]))
                  (Script.world_of (Script.accepting []) [])))
  = [ EvCall "UserModel.create_user"; EvConnect None;
      EvExecute "CREATE USER 'ann'@'localhost' IDENTIFIED BY 's3cret'";
      EvCommit; EvClose ].
Proof.
  rewrite (create_user_route_always_identifies (E := Script.env)
             [("username", PStr "ann"); ("password", PStr "s3cret")]
             (Script.world_of (Script.accepting []) []) eq_refl eq_refl eq_refl).
  reflexivity.
Defined.

Lemma restore_of_missing_file_does_nothing_witness :
  BackupModel.restore_backup (PStr "lost_20240101_000000.sql") PNone
    (world_of healthy two_backups)
  = (Raise (Exc Exception "Backup file not found"), world_of healthy two_backups).
Proof.
  refine (proj1 (restore_of_missing_file_does_nothing (E := env)
                   "lost_20240101_000000.sql" PNone
                   (world_of healthy two_backups) _)).
  vm_compute. reflexivity.
Defined.

Lemma restore_only_touches_the_stats_file_witness :
  restore_count (world_of healthy two_backups)
  <= restore_count
       (snd (BackupModel.restore_backup (PStr "hr_20231230_080000.sql") PNone
               (world_of healthy two_backups))).
Proof.
  destruct (BackupModel.restore_backup (PStr "hr_20231230_080000.sql") PNone
              (world_of healthy two_backups)) as [r w'] eqn:Hrun.
  destruct (restore_only_touches_the_stats_file (E := env) _ _ _ _ _ Hrun)
    as (_ & _ & _ & Hle).
  exact Hle.
Defined.

Lemma restore_runs_the_load_tool_witness :
  last (w_trace (snd (BackupModel.restore_backup (PStr "hr_20231230_080000.sql") PNone
                        (world_of healthy two_backups))))
  = Some (EvRun ["mysql"; "--host=localhost"; "--user=root"; "hr"]).
Proof.
  refine (restore_runs_the_load_tool (E := env) "hr_20231230_080000.sql" "hr" PNone
            (world_of healthy two_backups) (Text "-- MySQL dump") _ _ _);
    vm_compute; reflexivity.
Defined.

Lemma successful_backup_records_the_dump_witness :
  fst (BackupModel.backup_database (PStr "salesdb") PNone
         (world_of healthy two_backups))
  = Ok (PDict [ ("filename", PStr "salesdb_20240101_120000.sql");
                ("size", PInt 13);
                ("path", PStr "/srv/app/backups/salesdb_20240101_120000.sql") ]).
Proof.
  destruct (successful_backup_records_the_dump (E := env) (PStr "salesdb") PNone
              (world_of healthy two_backups)
              ["mysqldump"; "--host=localhost"; "--user=root"; "--password=kelma";
               "salesdb"]
              "-- MySQL dump" "" healthy
              [ entry "salesdb_20231231_235959.sql" "salesdb";
                entry "hr_20231230_080000.sql" "hr" ]
              eq_refl eq_refl eq_refl eq_refl eq_refl eq_refl)
    as (w' & Hrun & _).
  rewrite Hrun. vm_compute. reflexivity.
Defined.

Lemma backup_then_delete_restores_the_store_witness :
  exists r w' w'',
    BackupModel.backup_database (PStr "salesdb") PNone (world_of healthy two_backups)
    = (Ok r, w')
    /\ BackupModel.delete_backup "salesdb_20240101_120000.sql" w' = (Ok true, w'')
    /\ stored_entries w''
       = Some [ entry "salesdb_20231231_235959.sql" "salesdb";
                entry "hr_20231230_080000.sql" "hr" ].
Proof.
  destruct (backup_then_delete_restores_the_store (E := env) (PStr "salesdb") PNone
              (world_of healthy two_backups)
              ["mysqldump"; "--host=localhost"; "--user=root"; "--password=kelma";
               "salesdb"]
              "-- MySQL dump" "" healthy
              [ entry "salesdb_20231231_235959.sql" "salesdb";
                entry "hr_20231230_080000.sql" "hr" ]
              eq_refl eq_refl eq_refl eq_refl eq_refl eq_refl)
    as (r & w' & w'' & Hbackup & _ & Hdelete & Hstore & _).
  - repeat constructor; eexists; reflexivity.
  - repeat constructor.
  - exists r, w', w''. auto.
Defined.

Lemma failed_backup_without_tool_error_leaves_the_file_witness :
  is_Some
    (w_fs (snd (BackupModel.backup_database (PStr "salesdb") PNone
                  (Script.world_of Script.no_tool [])))
       !! "/srv/app/backups/salesdb_20240101_120000.sql").
Proof.
  destruct (BackupModel.backup_database (PStr "salesdb") PNone
              (Script.world_of Script.no_tool [])) as [[r|e] w'] eqn:Hrun;
    [vm_compute in Hrun; discriminate Hrun|].
  refine (proj1 (failed_backup_without_tool_error_leaves_the_file (E := Script.env)
                   (PStr "salesdb") PNone (Script.world_of Script.no_tool []) w' e
                   eq_refl Hrun _)).
  intros err Heq. subst e. vm_compute in Hrun. discriminate Hrun.
Defined.

Lemma backup_to_unwritable_path_runs_nothing_witness :
  exists msg,
    BackupModel.backup_database (PStr "salesdb") PNone
      (World (E := Script.env) (Script.accepting []) ∅ (fun _ => true)
         (fun _ => false) (fun _ => noon) 0%nat [])
    = (Raise (Exc OSError msg),
       World (E := Script.env) (Script.accepting []) ∅ (fun _ => true)
         (fun _ => false) (fun _ => noon) 1%nat []).
Proof.
  exact (backup_to_unwritable_path_runs_nothing (E := Script.env)
           (PStr "salesdb") PNone
           (World (E := Script.env) (Script.accepting []) ∅ (fun _ => true)
              (fun _ => false) (fun _ => noon) 0%nat []) eq_refl).
Defined.

Lemma derived_target_of_a_backup_name_witness :
  BackupModel.restore_target
    (BackupModel.backup_filename (E := env) (PStr "my_db") PNone "20240101_120000")
    PNone
  = PStr "my"
  /\ before_first_underscore "my_db" <> "my_db".
Proof.
  destruct (derived_target_of_a_backup_name (E := env)) as (Htarget & _ & Hstrict).
  split.
  - exact (Htarget "my_db" PNone "20240101_120000").
  - apply Hstrict. vm_compute. tauto.
Defined.


Lemma backup_stats_are_consistent_witness :
  exists (total_backups databases_backed_up : Z) (total_tables : value),
    fst (BackupModel.get_backup_stats (world_of down two_backups))
    = Ok (PDict [ ("total_backups", PInt total_backups);
                  ("databases_backed_up", PInt databases_backed_up);
                  ("total_restored", PInt 0);
                  ("total_tables", total_tables) ])
    /\ 0 <= databases_backed_up <= total_backups.
Proof.
  destruct (BackupModel.get_backup_stats (world_of down two_backups))
    as [[stats|e] w'] eqn:Hrun; [|vm_compute in Hrun; discriminate Hrun].
  destruct (backup_stats_are_consistent (E := env) _ _ _ Hrun)
    as (n & d & t & -> & Hbound).
  exists n, d, t. split; [reflexivity|exact Hbound].
Defined.

Lemma table_count_closes_only_on_success_witness :
  BackupModel.count_tables (Script.world_of Script.rejecting [])
  = (Ok (PInt 0),
     World (E := Script.env) Script.rejecting ∅ (fun _ => true) (fun _ => true)
       (fun _ => noon) 0%nat
       [ EvConnect (Some "information_schema");
         EvExecute BackupModel.table_count_query ]).
Proof.
  destruct (table_count_closes_only_on_success (E := Script.env)
              (Script.world_of Script.rejecting []) eq_refl) as [_ Hfail].
  rewrite (Hfail _ Script.rejecting eq_refl). reflexivity.
Defined.


End MoreInstances.
